(** * WhatsApp chatbot relay: webhook, messaging client, completion client

    A shallow embedding of [app/cliente_whatsapp.py], [app/cliente_openai.py]
    and [app/webhook.py].

    Python values that travel through the handlers (the decoded JSON body of
    a request, the dictionaries the clients build) are values of [json].
    A Python [dict] is an association list in insertion order, read by its
    first binding of a key.  Exceptions are explicit: a pure function
    returns a [result]; a function that talks to the outside world runs in
    the monad [M], which threads the log of outbound calls and may raise.

    Scope of the model: numbers are integers; a string is the sequence of
    the bytes of its UTF-8 encoding; console output ([print]) is left out;
    [assert] is executed (the interpreter is not run with [-O]). *)

From Stdlib Require Import ZArith List String Ascii Bool Lia.
From Stdlib Require DecimalString DecimalPos DecimalZ.
Import ListNotations.
Local Open Scope string_scope.
Local Open Scope Z_scope.

Set Warnings "-register-all".

(** ** Python values *)

Inductive json : Type :=
| JNull
| JBool (b : bool)
| JNum (n : Z)
| JStr (s : string)
| JList (l : list json)
| JDict (kv : list (string * json)).

(** Exceptions raised by the modelled code. *)
Inductive exn : Type :=
| KeyError (key : string)
| AttributeError (attr : string)
| TypeError
| IndexError
| ValueError (msg : string)
| AssertionError (msg : string)
| ExternalError (msg : string).

Inductive result (A : Type) : Type :=
| Ok (a : A)
| Raise (e : exn).

Arguments Ok {A} a.
Arguments Raise {A} e.

Module ResultMonad.

Definition bind {A B : Type} (r : result A) (k : A -> result B) : result B :=
  match r with
  | Ok a => k a
  | Raise e => Raise e
  end.

Definition map {A B : Type} (f : A -> B) (r : result A) : result B :=
  bind r (fun a => Ok (f a)).

End ResultMonad.

Declare Scope result_scope.
Delimit Scope result_scope with result.
Notation "x <- c ;; k" := (ResultMonad.bind c (fun x => k))
  (at level 61, c at next level, right associativity) : result_scope.

(** ** Dictionaries, truth values, comparisons, iteration *)

Fixpoint lookup (k : string) (kv : list (string * json)) : option json :=
  match kv with
  | [] => None
  | (k', v) :: rest => if String.eqb k k' then Some v else lookup k rest
  end.

(** [d.get(k, default)] on a dictionary. *)
Definition dict_get (kv : list (string * json)) (k : string) (default : json) : json :=
  match lookup k kv with
  | Some v => v
  | None => default
  end.

(** [x.get(k, default)]: only a [dict] has the method. *)
Definition py_get (x : json) (k : string) (default : json) : result json :=
  match x with
  | JDict kv => Ok (dict_get kv k default)
  | _ => Raise (AttributeError "get")
  end.

(** [x[k]] with a string key. *)
Definition py_getitem (x : json) (k : string) : result json :=
  match x with
  | JDict kv =>
      match lookup k kv with
      | Some v => Ok v
      | None => Raise (KeyError k)
      end
  | _ => Raise TypeError
  end.

(** Truth value of a Python object, as tested by [if], [and], [not]. *)
Definition truthy (x : json) : bool :=
  match x with
  | JNull => false
  | JBool b => b
  | JNum n => negb (n =? 0)
  | JStr s => negb (String.eqb s "")
  | JList l => match l with [] => false | _ => true end
  | JDict kv => match kv with [] => false | _ => true end
  end.

(** [x == s] for a string literal [s]. *)
Definition py_eq_str (x : json) (s : string) : bool :=
  match x with
  | JStr t => String.eqb t s
  | _ => false
  end.

(** [x == n] for an integer literal [n]; [True] and [False] compare as 1
    and 0. *)
Definition py_eq_int (x : json) (n : Z) : bool :=
  match x with
  | JNum m => m =? n
  | JBool b => (if b then 1 else 0) =? n
  | _ => false
  end.

(** The one-character strings a loop over a string runs through. *)
Fixpoint string_chars (s : string) : list json :=
  match s with
  | EmptyString => []
  | String c rest => JStr (String c EmptyString) :: string_chars rest
  end.

(** The keys of a dictionary, each once, in insertion order. *)
Fixpoint dict_keys (seen : list string) (kv : list (string * json)) : list json :=
  match kv with
  | [] => []
  | (k, _) :: rest =>
      if existsb (String.eqb k) seen then dict_keys seen rest
      else JStr k :: dict_keys (k :: seen) rest
  end.

(** The sequence a [for] loop runs over: the elements of a list, the keys of
    a dictionary, the characters of a string; nothing else is iterable. *)
Definition py_iter (x : json) : result (list json) :=
  match x with
  | JList l => Ok l
  | JDict kv => Ok (dict_keys [] kv)
  | JStr s => Ok (string_chars s)
  | _ => Raise TypeError
  end.

Definition is_substring (needle hay : string) : bool :=
  match String.index 0 needle hay with
  | Some _ => true
  | None => false
  end.

(** [s in x] for a string [s]: key of a dictionary, element of a list,
    substring of a string. *)
Definition py_contains (x : json) (s : string) : result bool :=
  match x with
  | JDict kv => Ok (match lookup s kv with Some _ => true | None => false end)
  | JList l => Ok (existsb (fun y => py_eq_str y s) l)
  | JStr t => Ok (is_substring s t)
  | _ => Raise TypeError
  end.

(** ** [json.dumps] of a string

    Strings are kept as their UTF-8 bytes.  With the default
    [ensure_ascii=True] the encoder writes the string between double quotes,
    escapes the quote, the backslash and the control characters, and writes
    every code point outside the printable ASCII range as [\uXXXX] in
    lowercase hexadecimal (a surrogate pair above the basic plane). *)

Definition hex_digit (n : N) : ascii :=
  if (n <? 10)%N then ascii_of_N (48 + n) else ascii_of_N (87 + n).

Definition hex4 (n : N) : string :=
  String (hex_digit (N.land (N.shiftr n 12) 15))
  (String (hex_digit (N.land (N.shiftr n 8) 15))
  (String (hex_digit (N.land (N.shiftr n 4) 15))
  (String (hex_digit (N.land n 15)) EmptyString))).

Definition backslash : ascii := "092"%char.
Definition dquote : ascii := "034"%char.

Definition escape_u (cp : N) : string :=
  String backslash (String "u"%char (hex4 cp)).

Definition escape_code_point (cp : N) : string :=
  if (cp <? 65536)%N then escape_u cp
  else
    let v := (cp - 65536)%N in
    escape_u (55296 + N.shiftr v 10) ++ escape_u (56320 + N.land v 1023).

Definition escape_ascii (c : ascii) : string :=
  let n := N_of_ascii c in
  if (n =? 34)%N then String backslash (String dquote EmptyString)
  else if (n =? 92)%N then String backslash (String backslash EmptyString)
  else if (n =? 10)%N then String backslash "n"
  else if (n =? 13)%N then String backslash "r"
  else if (n =? 9)%N then String backslash "t"
  else if (n =? 8)%N then String backslash "b"
  else if (n =? 12)%N then String backslash "f"
  else if ((32 <=? n) && (n <=? 126))%N then String c EmptyString
  else escape_u n.

(** [need] continuation bytes are still expected for the code point whose
    leading bits are [cp]. *)
Fixpoint escape_utf8 (s : string) (need : nat) (cp : N) : string :=
  match s with
  | EmptyString => EmptyString
  | String c rest =>
      let b := N_of_ascii c in
      match need with
      | O =>
          if (b <? 128)%N then escape_ascii c ++ escape_utf8 rest O 0%N
          else if (b <? 224)%N then escape_utf8 rest 1%nat (N.land b 31)
          else if (b <? 240)%N then escape_utf8 rest 2%nat (N.land b 15)
          else escape_utf8 rest 3%nat (N.land b 7)
      | S n =>
          let cp' := N.lor (N.shiftl cp 6) (N.land b 63) in
          match n with
          | O => escape_code_point cp' ++ escape_utf8 rest O 0%N
          | S _ => escape_utf8 rest n cp'
          end
      end
  end.

Definition json_dumps_str (s : string) : string :=
  String dquote (escape_utf8 s O 0%N ++ String dquote EmptyString).

(** ** cliente_whatsapp.py: [WhatsAppClient.process_notification]

    A [for] loop whose body may [return] is a scan over the list it runs
    over: [Ok None] when the loop ran to its end, [Ok (Some r)] when the
    body returned [r], [Raise e] when it raised. *)

Module WhatsAppNotification.

Local Open Scope result_scope.

Definition text_reply (message_body from_no : json) : json :=
  JDict [ ("statusCode", JNum 200);
          ("body", message_body);
          ("from_no", from_no);
          ("isBase64Encoded", JBool false) ].

Definition unsupported_reply : json :=
  JDict [ ("statusCode", JNum 403);
          ("body", JStr (json_dumps_str "Método não suportado"));
          ("isBase64Encoded", JBool false) ].

(** [for message in value["messages"]: ...] *)
Fixpoint scan_messages (messages : list json) : result (option json) :=
  match messages with
  | [] => Ok None
  | message :: rest =>
      ty <- py_get message "type" JNull ;;
      if py_eq_str ty "text" then
        from_no <- py_get message "from" JNull ;;
        text <- py_getitem message "text" ;;
        message_body <- py_get text "body" JNull ;;
        Ok (Some (text_reply message_body from_no))
      else scan_messages rest
  end.

(** The body of [for change in changes]. *)
Definition scan_change (change : json) : result (option json) :=
  value <- py_get change "value" JNull ;;
  if truthy value then
    has_messages <- py_contains value "messages" ;;
    if has_messages then
      messages <- py_getitem value "messages" ;;
      items <- py_iter messages ;;
      scan_messages items
    else Ok None
  else Ok None.

Fixpoint scan_changes (changes : list json) : result (option json) :=
  match changes with
  | [] => Ok None
  | change :: rest =>
      r <- scan_change change ;;
      match r with
      | Some reply => Ok (Some reply)
      | None => scan_changes rest
      end
  end.

(** The body of [for entry in entries]. *)
Definition scan_entry (entry : json) : result (option json) :=
  changes <- py_get entry "changes" (JList []) ;;
  items <- py_iter changes ;;
  scan_changes items.

Fixpoint scan_entries (entries : list json) : result (option json) :=
  match entries with
  | [] => Ok None
  | entry :: rest =>
      r <- scan_entry entry ;;
      match r with
      | Some reply => Ok (Some reply)
      | None => scan_entries rest
      end
  end.

Definition process_notification (data : json) : result json :=
  entries <- py_get data "entry" (JList []) ;;
  items <- py_iter entries ;;
  r <- scan_entries items ;;
  match r with
  | Some reply => Ok reply
  | None => Ok unsupported_reply
  end.

End WhatsAppNotification.

(** ** The outside world

    The process environment and the two remote services are parameters of
    the model.  A service is a function from the request to what the library
    call gives back: a response object, or an exception of the transport.
    Every outbound call is appended to the log the monad [M] threads. *)

Record Response : Type := { status_code : Z; text : string }.

Record ChatMessage : Type := { content : json }.
Record Choice : Type := { message : ChatMessage }.
Record ChatCompletion : Type := { choices : list Choice }.

Inductive event : Type :=
| ChatCompletionsCreate (api_key model : string) (messages : list json)
| RequestsPost (url : string) (payload : json) (headers : list (string * string)).

Record World : Type := {
  environ : list (string * string);
  chat_completions_create :
    string -> string -> list json -> result ChatCompletion;
  requests_post :
    string -> json -> list (string * string) -> result Response
}.

(** [os.environ.get(name)] *)
Fixpoint environ_get (env : list (string * string)) (name : string) : option string :=
  match env with
  | [] => None
  | (k, v) :: rest => if String.eqb name k then Some v else environ_get rest name
  end.

(** [str(x)] and [f"{x}"] for a value that is a string or [None]. *)
Definition py_str (x : option string) : string :=
  match x with
  | Some s => s
  | None => "None"
  end.

(** Truth value of a string or [None]. *)
Definition truthy_str (x : option string) : bool :=
  match x with
  | Some s => negb (String.eqb s "")
  | None => false
  end.

Definition is_some {A : Type} (x : option A) : bool :=
  match x with
  | Some _ => true
  | None => false
  end.

(** [x == y] for two values that are strings or [None]. *)
Definition eqb_str (x y : option string) : bool :=
  match x, y with
  | Some s, Some t => String.eqb s t
  | None, None => true
  | _, _ => false
  end.

Definition M (A : Type) : Type := list event -> list event * result A.

Module IO.

Definition ret {A : Type} (a : A) : M A := fun log => (log, Ok a).

Definition raise {A : Type} (e : exn) : M A := fun log => (log, Raise e).

Definition lift {A : Type} (r : result A) : M A := fun log => (log, r).

Definition bind {A B : Type} (m : M A) (k : A -> M B) : M B :=
  fun log =>
    match m log with
    | (log', Ok a) => k a log'
    | (log', Raise e) => (log', Raise e)
    end.

(** An outbound call: logged, then answered by the world. *)
Definition call {A : Type} (e : event) (answer : result A) : M A :=
  fun log => ((log ++ [e])%list, answer).

(** [assert cond, msg] *)
Definition assert (cond : bool) (msg : string) : M unit :=
  if cond then ret tt else raise (AssertionError msg).

End IO.

Declare Scope io_scope.
Delimit Scope io_scope with io.
Notation "x <- c ;; k" := (IO.bind c (fun x => k))
  (at level 61, c at next level, right associativity) : io_scope.
Notation "c ;; k" := (IO.bind c (fun _ => k))
  (at level 61, right associativity) : io_scope.

(** ** cliente_openai.py *)

Module OpenAIClient.

Local Open Scope io_scope.

Record t : Type := { client_api_key : string }.

Definition missing_key_message : string :=
  "A variável 'OPENAI_API_KEY' não está definida nas variáveis de ambiente.".

(** [OpenAIClient.__init__]; building the [OpenAI] object sends nothing. *)
Definition init (w : World) : M t :=
  let api_key := environ_get (environ w) "OPENAI_API_KEY" in
  if negb (truthy_str api_key) then IO.raise (ValueError missing_key_message)
  else IO.ret {| client_api_key := py_str api_key |}.

Definition developer_instruction : string :=
  "Você é um chatbot e só deve responder perguntas relacionadas ao tema: " ++
  "dúvidas de programação. Cordialmente, diga que não pode ajudar em outros temas.".

Definition context (user_message : json) : list json :=
  [ JDict [ ("role", JStr "developer"); ("content", JStr developer_instruction) ];
    JDict [ ("role", JStr "user"); ("content", user_message) ] ].

(** [OpenAIClient.complete] *)
Definition complete (w : World) (self : t) (user_message : json) : M json :=
  completion <-
    IO.call (ChatCompletionsCreate (client_api_key self) "gpt-4o" (context user_message))
            (chat_completions_create w (client_api_key self) "gpt-4o"
                                     (context user_message)) ;;
  match choices completion with
  | first :: _ => IO.ret (content (message first))
  | [] => IO.raise IndexError
  end.

End OpenAIClient.

(** ** cliente_whatsapp.py: the client and its two senders *)

Module WhatsAppClient.

Local Open Scope io_scope.

Record t : Type := { headers : list (string * string); API_URL : string }.

Definition class_API_URL : string := "https://graph.facebook.com/v15.0/".

Definition WHATSAPP_API_TOKEN (w : World) : option string :=
  environ_get (environ w) "WHATSAPP_API_TOKEN".

Definition WHATSAPP_CLOUD_NUMBER_ID (w : World) : option string :=
  environ_get (environ w) "WHATSAPP_CLOUD_NUMBER_ID".

(** [WhatsAppClient.__init__] *)
Definition init (w : World) : t :=
  {| headers :=
       [ ("Authorization", "Bearer " ++ py_str (WHATSAPP_API_TOKEN w));
         ("Content-Type", "application/json") ];
     API_URL := class_API_URL ++ py_str (WHATSAPP_CLOUD_NUMBER_ID w) |}.

Definition template_payload (template_name language_code phone_number : json) : json :=
  JDict [ ("messaging_product", JStr "whatsapp");
          ("to", phone_number);
          ("type", JStr "template");
          ("template",
            JDict [ ("name", template_name);
                    ("language", JDict [ ("code", language_code) ]) ]) ].

Definition text_payload (message phone_number : json) : json :=
  JDict [ ("messaging_product", JStr "whatsapp");
          ("to", phone_number);
          ("type", JStr "text");
          ("text",
            JDict [ ("preview_url", JBool false);
                    ("body", message) ]) ].

Definition post_messages (w : World) (self : t) (payload : json) : M Response :=
  let url := API_URL self ++ "/messages" in
  IO.call (RequestsPost url payload (headers self))
          (requests_post w url payload (headers self)).

(** [WhatsAppClient.send_template_message] *)
Definition send_template_message (w : World) (self : t)
    (template_name language_code phone_number : json) : M Z :=
  response <-
    post_messages w self (template_payload template_name language_code phone_number) ;;
  IO.assert (status_code response =? 200)
            ("Erro ao enviar mensagem de template: " ++ text response) ;;
  IO.ret (status_code response).

(** [WhatsAppClient.send_text_message] *)
Definition send_text_message (w : World) (self : t)
    (message phone_number : json) : M Z :=
  response <- post_messages w self (text_payload message phone_number) ;;
  IO.assert (status_code response =? 200)
            ("Erro ao enviar mensagem de texto: " ++ text response) ;;
  IO.ret (status_code response).

Definition process_notification (self : t) (data : json) : result json :=
  WhatsAppNotification.process_notification data.

End WhatsAppClient.

(** ** The built-in [int] on a string

    [int(s)] in base 10: white space around the literal is dropped, a sign
    may come first, and the digits may be grouped by single underscores.
    The model is the built-in on strings of ASCII characters; the digits and
    spaces of other scripts, which the built-in reads as well, and the cap
    some interpreters put on the number of digits are outside it. *)

Module PyInt.

Definition is_space (c : ascii) : bool :=
  let n := N_of_ascii c in
  (((9 <=? n) && (n <=? 13)) || (n =? 32))%N.

Definition is_digit (c : ascii) : bool :=
  let n := N_of_ascii c in ((48 <=? n) && (n <=? 57))%N.

Definition is_underscore (c : ascii) : bool := (N_of_ascii c =? 95)%N.

Definition digit_value (c : ascii) : Z := Z.of_N (N_of_ascii c) - 48.

Fixpoint lstrip (cs : list ascii) : list ascii :=
  match cs with
  | c :: rest => if is_space c then lstrip rest else cs
  | [] => []
  end.

Definition strip (cs : list ascii) : list ascii :=
  rev (lstrip (rev (lstrip cs))).

(** Value of [digit (_? digit)*]; [after_digit] tells whether the previous
    character was a digit. *)
Fixpoint digits_value (after_digit : bool) (acc : Z) (cs : list ascii) : option Z :=
  match cs with
  | [] => if after_digit then Some acc else None
  | c :: rest =>
      if is_digit c then digits_value true (10 * acc + digit_value c) rest
      else if is_underscore c && after_digit then digits_value false acc rest
      else None
  end.

Definition literal_value (cs : list ascii) : option Z :=
  match cs with
  | c :: rest =>
      if Ascii.eqb c "-" then option_map Z.opp (digits_value false 0 rest)
      else if Ascii.eqb c "+" then digits_value false 0 rest
      else digits_value false 0 cs
  | [] => None
  end.

Definition invalid_literal : exn :=
  ValueError "invalid literal for int() with base 10".

Definition py_int (s : string) : result Z :=
  match literal_value (strip (list_ascii_of_string s)) with
  | Some n => Ok n
  | None => Raise invalid_literal
  end.

(** [int(x)] for a value that is a string or [None]. *)
Definition py_int_opt (x : option string) : result Z :=
  match x with
  | Some s => py_int s
  | None => Raise TypeError
  end.

(** A recogniser of the literals, written from the grammar
    [sign? digit ("_"? digit)*] between optional white space. *)
Fixpoint grouped_digits (cs : list ascii) : bool :=
  match cs with
  | [] => false
  | c :: rest =>
      is_digit c &&
      match rest with
      | [] => true
      | c' :: rest' =>
          if is_underscore c' then grouped_digits rest' else grouped_digits rest
      end
  end.

Definition is_sign (c : ascii) : bool := Ascii.eqb c "+" || Ascii.eqb c "-".

Definition decimal_integer_string (s : string) : bool :=
  match strip (list_ascii_of_string s) with
  | c :: rest => if is_sign c then grouped_digits rest else grouped_digits (c :: rest)
  | [] => false
  end.

Definition is_ascii (s : string) : bool :=
  forallb (fun c => (N_of_ascii c <? 128)%N) (list_ascii_of_string s).

End PyInt.

(** ** webhook.py *)

Module Webhook.

(** What the handlers read of a request: the query parameters, and the
    outcome of decoding the body as JSON. *)
Record Request : Type := {
  query_params : string -> option string;
  request_json : result json
}.

Definition WHATSAPP_HOOK_TOKEN (w : World) : option string :=
  environ_get (environ w) "WHATSAPP_HOOK_TOKEN".

Definition iam_alive : json := JStr "Olá Mundo!".

Definition failure_message : string := "Falha na autenticação. Token inválido.".

Local Open Scope result_scope.

(** [subscribe], the handler of [GET /webhook/]. *)
Definition subscribe (w : World) (request : Request) : result json :=
  let verify_token := query_params request "hub.verify_token" in
  let challenge := query_params request "hub.challenge" in
  if eqb_str verify_token (WHATSAPP_HOOK_TOKEN w) && truthy_str challenge then
    n <- PyInt.py_int_opt challenge ;;
    Ok (JNum n)
  else Ok (JStr failure_message).

Local Close Scope result_scope.
Local Open Scope io_scope.

Definition success : json * Z := (JDict [ ("status", JStr "success") ], 200).

(** [callback], the handler of [POST /webhook/]. *)
Definition callback (w : World) (request : Request) : M (json * Z) :=
  let wtsapp_client := WhatsAppClient.init w in
  data <- IO.lift (request_json request) ;;
  response <- IO.lift (WhatsAppClient.process_notification wtsapp_client data) ;;
  status <- IO.lift (py_get response "statusCode" JNull) ;;
  if py_eq_int status 200 then
    body <- IO.lift (py_get response "body" JNull) ;;
    from_no <- IO.lift (py_get response "from_no" JNull) ;;
    if truthy body && truthy from_no then
      openai_client <- OpenAIClient.init w ;;
      body <- IO.lift (py_getitem response "body") ;;
      reply <- OpenAIClient.complete w openai_client body ;;
      from_no <- IO.lift (py_getitem response "from_no") ;;
      WhatsAppClient.send_text_message w wtsapp_client reply from_no ;;
      IO.ret success
    else IO.ret success
  else IO.ret success.

End Webhook.

(** ** The shape of a notification without text messages

    The notification is a dictionary whose ["entry"] is a list of entries;
    an entry is a dictionary whose ["changes"], when present, is a list of
    changes; a change is a dictionary whose ["value"], when present, is a
    dictionary whose ["messages"], when present, is a list of messages; a
    message is a dictionary.  The predicates below hold of a message, a
    change and an entry of that shape in which no message has the type
    ["text"]. *)

Module Shape.

Definition non_text_message (m : json) : bool :=
  match m with
  | JDict kv => negb (py_eq_str (dict_get kv "type" JNull) "text")
  | _ => false
  end.

Definition no_text_change (change : json) : bool :=
  match change with
  | JDict kv =>
      match lookup "value" kv with
      | None => true
      | Some (JDict value) =>
          match lookup "messages" value with
          | None => true
          | Some (JList messages) => forallb non_text_message messages
          | Some _ => false
          end
      | Some _ => false
      end
  | _ => false
  end.

Definition no_text_entry (entry : json) : bool :=
  match entry with
  | JDict kv =>
      match lookup "changes" kv with
      | None => true
      | Some (JList changes) => forallb no_text_change changes
      | Some _ => false
      end
  | _ => false
  end.

(** The 403 reply as the specification words it. *)
Definition spec_unsupported_reply : json :=
  JDict [ ("statusCode", JNum 403);
          ("body", JStr "unsupported method");
          ("isBase64Encoded", JBool false) ].

End Shape.

(** ** Sample notifications *)

Module Samples.

Definition image_message : list (string * json) :=
  [ ("from", JStr "5511888888888"); ("type", JStr "image") ].

Definition text_message : list (string * json) :=
  [ ("from", JStr "5511999999999");
    ("type", JStr "text");
    ("text", JDict [ ("body", JStr "what is a pointer?") ]) ].

(** A message that declares the type ["text"] and has no ["text"] object. *)
Definition bare_text_message : list (string * json) :=
  [ ("from", JStr "5511999999999"); ("type", JStr "text") ].

Definition value_of (messages : list json) : list (string * json) :=
  [ ("messaging_product", JStr "whatsapp"); ("messages", JList messages) ].

Definition change_of (messages : list json) : list (string * json) :=
  [ ("field", JStr "messages"); ("value", JDict (value_of messages)) ].

Definition entry_of (changes : list json) : list (string * json) :=
  [ ("id", JStr "0"); ("changes", JList changes) ].

Definition notification_of (entries : list json) : list (string * json) :=
  [ ("object", JStr "whatsapp_business_account"); ("entry", JList entries) ].

(** One status-only entry, then an entry whose second change holds an image,
    the text message, and a value that is no message at all. *)
Definition mixed_notification : list (string * json) :=
  notification_of
    [ JDict (entry_of [ JDict [ ("field", JStr "messages") ] ]);
      JDict (entry_of
        [ JDict (change_of [ JDict image_message ]);
          JDict (change_of [ JDict image_message; JDict text_message; JNum 3 ]);
          JNull ]);
      JStr "trailing" ].

Definition single_text_notification : list (string * json) :=
  notification_of [ JDict (entry_of [ JDict (change_of [ JDict text_message ]) ]) ].

Definition image_only_notification : list (string * json) :=
  notification_of [ JDict (entry_of [ JDict (change_of [ JDict image_message ]) ]) ].

Definition bare_text_notification : list (string * json) :=
  notification_of [ JDict (entry_of [ JDict (change_of [ JDict bare_text_message ]) ]) ].

End Samples.

(** ** Sample worlds and requests *)

Module Stubs.

Definition completion_of (reply : string) : ChatCompletion :=
  {| choices := [ {| message := {| content := JStr reply |} |} ] |}.

(** Every credential set; the completion service answers [reply]; the
    messaging service answers [status] with the body [body]. *)
Definition world (reply : string) (status : Z) (body : string) : World :=
  {| environ :=
       [ ("OPENAI_API_KEY", "sk-test");
         ("WHATSAPP_API_TOKEN", "token");
         ("WHATSAPP_CLOUD_NUMBER_ID", "1234");
         ("WHATSAPP_HOOK_TOKEN", "secret") ];
     chat_completions_create := fun _ _ _ => Ok (completion_of reply);
     requests_post := fun _ _ _ => Ok {| status_code := status; text := body |} |}.

(** The same with [OPENAI_API_KEY] set to [value], or unset. *)
Definition world_with_key (value : option string) : World :=
  {| environ :=
       match value with
       | Some v => [ ("OPENAI_API_KEY", v); ("WHATSAPP_HOOK_TOKEN", "secret") ]
       | None => [ ("WHATSAPP_HOOK_TOKEN", "secret") ]
       end;
     chat_completions_create := fun _ _ _ => Ok (completion_of "Use a loop.");
     requests_post := fun _ _ _ => Ok {| status_code := 200; text := "{}" |} |}.

Definition post_request (data : json) : Webhook.Request :=
  {| Webhook.query_params := fun _ => None;
     Webhook.request_json := Ok data |}.

Definition get_request (verify_token challenge : option string) : Webhook.Request :=
  {| Webhook.query_params := fun name =>
       if String.eqb name "hub.verify_token" then verify_token
       else if String.eqb name "hub.challenge" then challenge
       else None;
     Webhook.request_json := Raise (ValueError "no body") |}.

End Stubs.

(** ** cliente_whatsapp.py: the smoke test run when the file is executed *)

Module WhatsAppMain.

Local Open Scope io_scope.

Definition PHONE_NUMBER (w : World) : option string :=
  environ_get (environ w) "PHONE_NUMBER".

(** The block under [if __name__ == "__main__"]. *)
Definition main (w : World) : M unit :=
  let client := WhatsAppClient.init w in
  if truthy_str (PHONE_NUMBER w) then
    response_code <-
      WhatsAppClient.send_template_message w client
        (JStr "hello_world") (JStr "en_US") (JStr (py_str (PHONE_NUMBER w))) ;;
    IO.ret tt
  else IO.ret tt.

End WhatsAppMain.

(** ** The messages of a notification, flattened

    A declarative reading of a notification of the expected shape: the
    messages of all changes of all entries, in order, and among them those
    of type ["text"]. *)

Module Flat.

Definition is_dict (x : json) : bool :=
  match x with
  | JDict _ => true
  | _ => false
  end.

Definition is_text_message (m : json) : bool :=
  match m with
  | JDict kv => py_eq_str (dict_get kv "type" JNull) "text"
  | _ => false
  end.

Definition messages_of_change (change : json) : list json :=
  match change with
  | JDict kv =>
      match lookup "value" kv with
      | Some (JDict value) =>
          match lookup "messages" value with
          | Some (JList messages) => messages
          | _ => []
          end
      | _ => []
      end
  | _ => []
  end.

Definition messages_of_entry (entry : json) : list json :=
  match entry with
  | JDict kv =>
      match lookup "changes" kv with
      | Some (JList changes) => flat_map messages_of_change changes
      | _ => []
      end
  | _ => []
  end.

Definition messages_of (data : list (string * json)) : list json :=
  match lookup "entry" data with
  | Some (JList entries) => flat_map messages_of_entry entries
  | _ => []
  end.

Definition text_messages (data : list (string * json)) : list json :=
  filter is_text_message (messages_of data).

Definition shaped_change (change : json) : bool :=
  match change with
  | JDict kv =>
      match lookup "value" kv with
      | None => true
      | Some (JDict value) =>
          match lookup "messages" value with
          | None => true
          | Some (JList messages) => forallb is_dict messages
          | Some _ => false
          end
      | Some _ => false
      end
  | _ => false
  end.

Definition shaped_entry (entry : json) : bool :=
  match entry with
  | JDict kv =>
      match lookup "changes" kv with
      | None => true
      | Some (JList changes) => forallb shaped_change changes
      | Some _ => false
      end
  | _ => false
  end.

Definition shaped_notification (data : list (string * json)) : bool :=
  match lookup "entry" data with
  | None => true
  | Some (JList entries) => forallb shaped_entry entries
  | Some _ => false
  end.

End Flat.

(** [str(n)] for an integer: its decimal numeral, with a minus sign when
    negative. *)
Definition py_str_int (n : Z) : string :=
  DecimalString.NilZero.string_of_int (Z.to_int n).

(** ** Outcomes of the notification scan *)

Module Outcomes.

Definition is_text_reply (r : json) : Prop :=
  exists body from_no, r = WhatsAppNotification.text_reply body from_no.

Definition scan_exception (e : exn) : Prop :=
  e = KeyError "text" \/ e = AttributeError "get" \/ e = TypeError.

(** A loop that did not return goes on with what follows it. *)
Definition continue_with (r next : result (option json)) : result (option json) :=
  match r with
  | Ok None => next
  | _ => r
  end.

End Outcomes.

(** ** More sample notifications *)

Module MoreSamples.

Import Samples.

Definition second_text_message : list (string * json) :=
  [ ("from", JStr "5511777777777");
    ("type", JStr "text");
    ("text", JDict [ ("body", JStr "and a reference?") ]) ].

(** Two entries; the first text message is the second message of the second
    change of the first entry, and another text message follows it. *)
Definition two_text_notification : list (string * json) :=
  notification_of
    [ JDict (entry_of
        [ JDict (change_of [ JDict image_message ]);
          JDict (change_of [ JDict image_message; JDict text_message ]) ]);
      JDict (entry_of [ JDict (change_of [ JDict second_text_message ]) ]) ].

(** A text message whose ["text"] is a string, not an object. *)
Definition flat_text_message : list (string * json) :=
  [ ("from", JStr "5511999999999"); ("type", JStr "text"); ("text", JStr "hi") ].

Definition flat_text_notification : list (string * json) :=
  notification_of [ JDict (entry_of [ JDict (change_of [ JDict flat_text_message ]) ]) ].

End MoreSamples.

(** ** More sample worlds *)

Module MoreStubs.

(** The environment [env]; the completion service gives [completion]; the
    messaging service gives [posted]. *)
Definition world_of (env : list (string * string))
    (completion : result ChatCompletion) (posted : result Response) : World :=
  {| environ := env;
     chat_completions_create := fun _ _ _ => completion;
     requests_post := fun _ _ _ => posted |}.

Definition full_env : list (string * string) :=
  [ ("OPENAI_API_KEY", "sk-test");
    ("WHATSAPP_API_TOKEN", "token");
    ("WHATSAPP_CLOUD_NUMBER_ID", "1234");
    ("WHATSAPP_HOOK_TOKEN", "secret");
    ("PHONE_NUMBER", "5511999999999") ].

Definition accepted : result Response := Ok {| status_code := 200; text := "{}" |}.

Definition unreachable : exn := ExternalError "connection refused".

End MoreStubs.

(** * Properties *)

(** ** The notification scan *)

Section NotificationScan.

Import WhatsAppNotification Shape.

Lemma scan_messages_skip (skipped rest : list json) :
  forallb non_text_message skipped = true ->
  scan_messages (skipped ++ rest) = scan_messages rest.
Proof.
  induction skipped as [|m skipped IH]; simpl; [reflexivity|].
  intros H. apply andb_true_iff in H as [Hm Hs].
  destruct m as [| | | | |kv]; try discriminate.
  simpl in *. apply negb_true_iff in Hm. rewrite Hm. auto.
Qed.

Lemma scan_messages_none (messages : list json) :
  forallb non_text_message messages = true ->
  scan_messages messages = Ok None.
Proof.
  intros H. rewrite <- (app_nil_r messages).
  now rewrite scan_messages_skip.
Qed.

Lemma scan_change_none (change : json) :
  no_text_change change = true -> scan_change change = Ok None.
Proof.
  destruct change as [| | | | |kv]; try discriminate.
  unfold no_text_change, scan_change. simpl. unfold dict_get.
  destruct (lookup "value" kv) as [value|]; [|reflexivity].
  destruct value as [| | | | |value]; try discriminate.
  destruct value as [|binding value]; [reflexivity|].
  simpl truthy. cbv iota. unfold py_contains, py_getitem.
  destruct (lookup "messages" (binding :: value)) as [messages|]; [|reflexivity].
  destruct messages as [| | | |messages|]; try discriminate.
  intros H. simpl. now apply scan_messages_none.
Qed.

Lemma scan_changes_skip (skipped rest : list json) :
  forallb no_text_change skipped = true ->
  scan_changes (skipped ++ rest) = scan_changes rest.
Proof.
  induction skipped as [|c skipped IH]; simpl; [reflexivity|].
  intros H. apply andb_true_iff in H as [Hc Hs].
  rewrite (scan_change_none _ Hc). simpl. auto.
Qed.

Lemma scan_entry_none (entry : json) :
  no_text_entry entry = true -> scan_entry entry = Ok None.
Proof.
  destruct entry as [| | | | |kv]; try discriminate.
  unfold no_text_entry, scan_entry. simpl. unfold dict_get.
  destruct (lookup "changes" kv) as [changes|]; [|reflexivity].
  destruct changes as [| | | |changes|]; try discriminate.
  intros H. simpl. rewrite <- (app_nil_r changes).
  now rewrite scan_changes_skip.
Qed.

Lemma scan_entries_skip (skipped rest : list json) :
  forallb no_text_entry skipped = true ->
  scan_entries (skipped ++ rest) = scan_entries rest.
Proof.
  induction skipped as [|e skipped IH]; simpl; [reflexivity|].
  intros H. apply andb_true_iff in H as [He Hs].
  rewrite (scan_entry_none _ He). simpl. auto.
Qed.


End NotificationScan.

Section NotificationScanResults.

Import WhatsAppNotification Shape Samples.


(** C2.  A message of type ["text"] without a ["text"] object makes
    [process_notification] raise [KeyError]: the subscript [message["text"]]
    is the one access of the scan that is neither optional nor guarded. *)
Theorem process_notification_missing_text_raises :
  process_notification (JDict bare_text_notification) = Raise (KeyError "text").
Proof. reflexivity. Qed.

(** C3, as stated: the reply to a notification without ["entry"] is not the
    dictionary with the body ["unsupported method"]. *)
Lemma process_notification_unsupported_body_differs :
  process_notification (JDict []) <> Ok spec_unsupported_reply.
Proof. intros H. discriminate H. Qed.

(** C3, amended.  For a notification without ["entry"], with an empty
    ["entry"], or whose entries hold no text message, [process_notification]
    returns status 403, [isBase64Encoded] false, and as body the JSON
    encoding of the Portuguese sentence: the text
    [M\u00e9todo n\u00e3o suportado] between double quotes. *)
Theorem process_notification_unsupported
    (data : list (string * json)) (entries : list json) :
  lookup "entry" data = None \/
  lookup "entry" data = Some (JList []) \/
  (lookup "entry" data = Some (JList entries) /\
   forallb no_text_entry entries = true) ->
  process_notification (JDict data) =
    Ok (JDict [ ("statusCode", JNum 403);
                ("body", JStr (String dquote
                     ("M\u00e9todo n\u00e3o suportado" ++ String dquote "")));
                ("isBase64Encoded", JBool false) ]).
Proof.
  intros H. unfold process_notification. simpl. unfold dict_get.
  destruct H as [H | [H | [H Hes]]]; rewrite H; simpl; try reflexivity.
  rewrite <- (app_nil_r entries).
  rewrite scan_entries_skip by assumption. reflexivity.
Qed.

Lemma process_notification_unsupported_witness :
  process_notification (JDict image_only_notification) =
    Ok (JDict [ ("statusCode", JNum 403);
                ("body", JStr (String dquote
                     ("M\u00e9todo n\u00e3o suportado" ++ String dquote "")));
                ("isBase64Encoded", JBool false) ]).
Proof.
  apply (process_notification_unsupported image_only_notification
           [ JDict (entry_of [ JDict (change_of [ JDict image_message ]) ]) ]).
  right; right; split; reflexivity.
Defined.

End NotificationScanResults.

(** ** Sending messages *)

Section Senders.

Import WhatsAppClient.

Variable w : World.
Variable self : WhatsAppClient.t.

Lemma send_text_message_run (message phone_number : json) (log : list event) :
  send_text_message w self message phone_number log =
    let url := API_URL self ++ "/messages" in
    let payload := text_payload message phone_number in
    ((log ++ [RequestsPost url payload (headers self)])%list,
     match requests_post w url payload (headers self) with
     | Ok response =>
         if status_code response =? 200 then Ok (status_code response)
         else Raise (AssertionError
                       ("Erro ao enviar mensagem de texto: " ++ text response))
     | Raise e => Raise e
     end).
Proof.
  unfold send_text_message, post_messages, IO.bind, IO.call, IO.assert.
  destruct (requests_post w _ _ _) as [response|e]; [|reflexivity].
  destruct (status_code response =? 200); reflexivity.
Qed.

Lemma send_template_message_run
    (template_name language_code phone_number : json) (log : list event) :
  send_template_message w self template_name language_code phone_number log =
    let url := API_URL self ++ "/messages" in
    let payload := template_payload template_name language_code phone_number in
    ((log ++ [RequestsPost url payload (headers self)])%list,
     match requests_post w url payload (headers self) with
     | Ok response =>
         if status_code response =? 200 then Ok (status_code response)
         else Raise (AssertionError
                       ("Erro ao enviar mensagem de template: " ++ text response))
     | Raise e => Raise e
     end).
Proof.
  unfold send_template_message, post_messages, IO.bind, IO.call, IO.assert.
  destruct (requests_post w _ _ _) as [response|e]; [|reflexivity].
  destruct (status_code response =? 200); reflexivity.
Qed.

(** C5.  With a transport that answers [response] to every request, both
    senders return 200 when the status of [response] is 200, and otherwise
    raise an assertion error whose message ends with the text of
    [response]. *)
Theorem send_status_checked
    (response : Response)
    (message phone_number template_name language_code : json)
    (log : list event) :
  (forall url payload hs, requests_post w url payload hs = Ok response) ->
  (status_code response = 200 ->
     snd (send_text_message w self message phone_number log) = Ok 200 /\
     snd (send_template_message w self template_name language_code
                                phone_number log) = Ok 200) /\
  (status_code response <> 200 ->
     snd (send_text_message w self message phone_number log) =
       Raise (AssertionError
                ("Erro ao enviar mensagem de texto: " ++ text response)) /\
     snd (send_template_message w self template_name language_code
                                phone_number log) =
       Raise (AssertionError
                ("Erro ao enviar mensagem de template: " ++ text response))).
Proof.
  intros Hstub.
  rewrite send_text_message_run, send_template_message_run. cbv zeta.
  rewrite !Hstub. cbn [snd].
  split; intros Hstatus.
  - rewrite Hstatus. split; reflexivity.
  - apply Z.eqb_neq in Hstatus. rewrite Hstatus. split; reflexivity.
Qed.


End Senders.

Lemma send_status_checked_witness :
  snd (WhatsAppClient.send_text_message
         (Stubs.world "ok" 401 "invalid token")
         (WhatsAppClient.init (Stubs.world "ok" 401 "invalid token"))
         (JStr "hello") (JStr "5511999999999") []) =
    Raise (AssertionError "Erro ao enviar mensagem de texto: invalid token") /\
  snd (WhatsAppClient.send_template_message
         (Stubs.world "ok" 401 "invalid token")
         (WhatsAppClient.init (Stubs.world "ok" 401 "invalid token"))
         (JStr "hello_world") (JStr "en_US") (JStr "5511999999999") []) =
    Raise (AssertionError "Erro ao enviar mensagem de template: invalid token").
Proof.
  apply (send_status_checked
           (Stubs.world "ok" 401 "invalid token")
           (WhatsAppClient.init (Stubs.world "ok" 401 "invalid token"))
           {| status_code := 401; text := "invalid token" |}
           (JStr "hello") (JStr "5511999999999")
           (JStr "hello_world") (JStr "en_US") []).
  - intros url payload hs. reflexivity.
  - simpl. lia.
Defined.


(** ** The completion client *)

Section Completion.

Import OpenAIClient.

Variable w : World.

Lemma complete_run (self : OpenAIClient.t) (user_message : json) (log : list event) :
  complete w self user_message log =
    ((log ++ [ChatCompletionsCreate (client_api_key self) "gpt-4o"
                                    (context user_message)])%list,
     match chat_completions_create w (client_api_key self) "gpt-4o"
                                   (context user_message) with
     | Ok completion =>
         match choices completion with
         | first :: _ => Ok (content (message first))
         | [] => Raise IndexError
         end
     | Raise e => Raise e
     end).
Proof.
  unfold complete, IO.bind, IO.call.
  destruct (chat_completions_create w _ _ _) as [completion|e]; [|reflexivity].
  destruct (choices completion); reflexivity.
Qed.


Lemma init_run (log : list event) :
  init w log =
    (log,
     match environ_get (environ w) "OPENAI_API_KEY" with
     | Some k =>
         if String.eqb k "" then Raise (ValueError missing_key_message)
         else Ok {| client_api_key := k |}
     | None => Raise (ValueError missing_key_message)
     end).
Proof.
  unfold init. destruct (environ_get (environ w) "OPENAI_API_KEY") as [k|]; simpl.
  - destruct (String.eqb k ""); reflexivity.
  - reflexivity.
Qed.

(** C8, amended.  When [OPENAI_API_KEY] is unset or set to the empty string,
    building the client raises [ValueError] and nothing has been sent; when
    it is set to a non-empty string, building the client succeeds, again
    without sending anything. *)
Theorem init_requires_key (log : list event) :
  (environ_get (environ w) "OPENAI_API_KEY" = None \/
   environ_get (environ w) "OPENAI_API_KEY" = Some "" ->
   init w log = (log, Raise (ValueError missing_key_message))) /\
  (forall k,
     environ_get (environ w) "OPENAI_API_KEY" = Some k -> k <> "" ->
     init w log = (log, Ok {| client_api_key := k |})).
Proof.
  rewrite init_run. split.
  - intros [H | H]; rewrite H; reflexivity.
  - intros k H Hk. rewrite H. apply String.eqb_neq in Hk. rewrite Hk. reflexivity.
Qed.

End Completion.


(** C8, as stated: with [OPENAI_API_KEY] present in the environment and
    empty, building the client fails. *)
Lemma init_fails_on_present_empty_key :
  environ_get (environ (Stubs.world_with_key (Some ""))) "OPENAI_API_KEY" = Some "" /\
  OpenAIClient.init (Stubs.world_with_key (Some "")) [] =
    ([], Raise (ValueError OpenAIClient.missing_key_message)).
Proof. split; reflexivity. Qed.

Lemma init_requires_key_witness :
  OpenAIClient.init (Stubs.world_with_key None) [] =
    ([], Raise (ValueError OpenAIClient.missing_key_message)) /\
  OpenAIClient.init (Stubs.world_with_key (Some "sk-test")) [] =
    ([], Ok {| OpenAIClient.client_api_key := "sk-test" |}).
Proof.
  split.
  - apply (proj1 (init_requires_key (Stubs.world_with_key None) [])).
    left. reflexivity.
  - apply (proj2 (init_requires_key (Stubs.world_with_key (Some "sk-test")) [])
                 "sk-test").
    + reflexivity.
    + discriminate.
Defined.

(** ** The subscription handshake *)

Section IntegerLiterals.

Import PyInt.

Lemma digit_not_underscore (c : ascii) :
  is_digit c = true -> is_underscore c = false.
Proof.
  unfold is_digit, is_underscore. intros H.
  apply andb_true_iff in H as [_ H]. apply N.leb_le in H.
  apply N.eqb_neq. lia.
Qed.

Lemma digits_value_recognised (cs : list ascii) :
  forall acc,
    is_some (digits_value false acc cs) = grouped_digits cs /\
    is_some (digits_value true acc cs) =
      match cs with
      | [] => true
      | c :: rest => if is_underscore c then grouped_digits rest else grouped_digits cs
      end.
Proof.
  induction cs as [|c rest IH]; intros acc; [split; reflexivity|].
  cbn [digits_value grouped_digits].
  destruct (is_digit c) eqn:Hd.
  - rewrite (digit_not_underscore c Hd).
    destruct (IH (10 * acc + digit_value c)) as [_ IH2]. rewrite IH2.
    split; reflexivity.
  - destruct (is_underscore c) eqn:Hu; cbn [andb].
    + destruct (IH acc) as [IH1 _]. rewrite IH1. split; reflexivity.
    + split; reflexivity.
Qed.

Lemma literal_value_recognised (cs : list ascii) :
  is_some (literal_value cs) =
    match cs with
    | c :: rest => if is_sign c then grouped_digits rest else grouped_digits (c :: rest)
    | [] => false
    end.
Proof.
  destruct cs as [|c rest]; [reflexivity|].
  unfold literal_value, is_sign.
  destruct (Ascii.eqb c "-") eqn:Hminus.
  - rewrite orb_true_r.
    destruct (digits_value_recognised rest 0) as [H _]. rewrite <- H.
    destruct (digits_value false 0 rest); reflexivity.
  - rewrite orb_false_r. destruct (Ascii.eqb c "+").
    + apply (digits_value_recognised rest 0).
    + apply (digits_value_recognised (c :: rest) 0).
Qed.

(** [int] raises exactly on the strings that are no integer literal. *)
Lemma py_int_raises_iff (s : string) :
  py_int s = Raise invalid_literal <-> decimal_integer_string s = false.
Proof.
  unfold py_int, decimal_integer_string.
  pose proof (literal_value_recognised (strip (list_ascii_of_string s))) as H.
  destruct (literal_value (strip (list_ascii_of_string s))) as [n|];
    cbn [is_some] in H; rewrite <- H; split; intros; congruence.
Qed.

End IntegerLiterals.

Section Subscribe.

Import PyInt Webhook.

Variable w : World.
Variable request : Request.

Lemma eqb_str_eq (x y : option string) : eqb_str x y = true <-> x = y.
Proof.
  destruct x as [s|], y as [t|]; simpl; split; intros H;
    try discriminate; try reflexivity.
  - apply String.eqb_eq in H. now subst.
  - injection H as ->. apply String.eqb_refl.
Qed.

Lemma subscribe_accepts (c : string) :
  query_params request "hub.verify_token" = WHATSAPP_HOOK_TOKEN w ->
  query_params request "hub.challenge" = Some c ->
  c <> "" ->
  subscribe w request = ResultMonad.map JNum (py_int c).
Proof.
  intros Htoken Hchallenge Hc. unfold subscribe.
  apply eqb_str_eq in Htoken. rewrite Htoken, Hchallenge. simpl.
  apply String.eqb_neq in Hc. rewrite Hc. reflexivity.
Qed.


(** C10.  When the token matches and the challenge is a non-empty string of
    ASCII characters that is not an integer literal, [subscribe] raises the
    [ValueError] of the conversion: nothing in the handler guards it. *)
Theorem subscribe_conversion_unguarded (c : string) :
  query_params request "hub.verify_token" = WHATSAPP_HOOK_TOKEN w ->
  query_params request "hub.challenge" = Some c ->
  c <> "" ->
  is_ascii c = true ->
  decimal_integer_string c = false ->
  subscribe w request =
    Raise (ValueError "invalid literal for int() with base 10").
Proof.
  intros Htoken Hchallenge Hc _ Hliteral.
  rewrite (subscribe_accepts c Htoken Hchallenge Hc).
  apply py_int_raises_iff in Hliteral. rewrite Hliteral. reflexivity.
Qed.

End Subscribe.


Lemma subscribe_conversion_unguarded_witness :
  Webhook.subscribe (Stubs.world "ok" 200 "{}")
                    (Stubs.get_request (Some "secret") (Some "12a")) =
    Raise (ValueError "invalid literal for int() with base 10").
Proof.
  apply (subscribe_conversion_unguarded
           (Stubs.world "ok" 200 "{}")
           (Stubs.get_request (Some "secret") (Some "12a")) "12a").
  - reflexivity.
  - reflexivity.
  - discriminate.
  - reflexivity.
  - reflexivity.
Defined.

(** ** The notification callback *)

Section Callback.

Import Webhook.

Variable w : World.
Variable request : Request.



Lemma callback_nothing_to_relay (log : list event) (data response : json) :
  request_json request = Ok data ->
  WhatsAppNotification.process_notification data = Ok response ->
  response = WhatsAppNotification.unsupported_reply \/
  (exists body from_no,
     response = WhatsAppNotification.text_reply body from_no /\
     truthy body && truthy from_no = false) ->
  callback w request log = (log, Ok success).
Proof.
  intros Hjson Hscan Hresponse.
  unfold callback, IO.bind, IO.lift, IO.ret, WhatsAppClient.process_notification.
  rewrite Hjson, Hscan.
  destruct Hresponse as [-> | (body & from_no & -> & Hempty)].
  - reflexivity.
  - cbn. rewrite Hempty. reflexivity.
Qed.


End Callback.




(** * Further properties *)

(** ** What the notification scan can return and raise *)

Section ScanOutcomes.

Import WhatsAppNotification Outcomes.

Lemma scan_messages_outcome (messages : list json) :
  match scan_messages messages with
  | Ok None => True
  | Ok (Some r) => is_text_reply r
  | Raise e => scan_exception e
  end.
Proof.
  unfold scan_exception.
  induction messages as [|m messages IH]; [exact I|].
  destruct m as [| | | | |kv]; simpl; auto.
  destruct (py_eq_str (dict_get kv "type" JNull) "text"); [|exact IH].
  destruct (lookup "text" kv) as [t|]; simpl; auto.
  destruct t; simpl; auto. now eexists; eexists.
Qed.

Lemma scan_change_outcome (change : json) :
  match scan_change change with
  | Ok None => True
  | Ok (Some r) => is_text_reply r
  | Raise e => scan_exception e
  end.
Proof.
  unfold scan_change.
  destruct change as [| | | | |kv]; simpl; try (right; left; reflexivity).
  destruct (truthy (dict_get kv "value" JNull)); [|exact I].
  destruct (dict_get kv "value" JNull) as [| | | |l|value]; simpl;
    try (right; right; reflexivity).
  - destruct (is_substring "messages" s); simpl; [right; right; reflexivity | exact I].
  - destruct (existsb _ l); simpl; [right; right; reflexivity | exact I].
  - destruct (lookup "messages" value) as [messages|]; simpl; [|exact I].
    destruct messages; simpl; try (right; right; reflexivity);
      apply scan_messages_outcome.
Qed.

Lemma scan_changes_outcome (changes : list json) :
  match scan_changes changes with
  | Ok None => True
  | Ok (Some r) => is_text_reply r
  | Raise e => scan_exception e
  end.
Proof.
  induction changes as [|c changes IH]; [exact I|]. simpl.
  pose proof (scan_change_outcome c) as H.
  destruct (scan_change c) as [[r|]|e]; simpl; assumption.
Qed.

Lemma scan_entry_outcome (entry : json) :
  match scan_entry entry with
  | Ok None => True
  | Ok (Some r) => is_text_reply r
  | Raise e => scan_exception e
  end.
Proof.
  unfold scan_entry.
  destruct entry as [| | | | |kv]; simpl; try (right; left; reflexivity).
  destruct (dict_get kv "changes" (JList [])); simpl;
    try (right; right; reflexivity); apply scan_changes_outcome.
Qed.

Lemma scan_entries_outcome (entries : list json) :
  match scan_entries entries with
  | Ok None => True
  | Ok (Some r) => is_text_reply r
  | Raise e => scan_exception e
  end.
Proof.
  induction entries as [|e entries IH]; [exact I|]. simpl.
  pose proof (scan_entry_outcome e) as H.
  destruct (scan_entry e) as [[r|]|e']; simpl; assumption.
Qed.

Lemma process_notification_outcome (data : json) :
  match process_notification data with
  | Ok r => r = unsupported_reply \/ is_text_reply r
  | Raise e => scan_exception e
  end.
Proof.
  unfold process_notification.
  destruct data as [| | | | |kv]; simpl; try (right; left; reflexivity).
  assert (H : forall items,
             match ResultMonad.bind (scan_entries items)
                     (fun r => match r with
                               | Some reply => Ok reply
                               | None => Ok unsupported_reply
                               end) with
             | Ok r => r = unsupported_reply \/ is_text_reply r
             | Raise e => scan_exception e
             end).
  { intros items. pose proof (scan_entries_outcome items) as H.
    destruct (scan_entries items) as [[r|]|e]; simpl; auto. }
  destruct (dict_get kv "entry" (JList [])); simpl;
    try (right; right; reflexivity); apply H.
Qed.

End ScanOutcomes.

(** X1.  Whatever [process_notification] returns is one of its two replies:
    the 403 reply, or a reply with status 200, a body, a sender and
    [isBase64Encoded] false. *)
Theorem process_notification_reply_shape (data r : json) :
  WhatsAppNotification.process_notification data = Ok r ->
  r = WhatsAppNotification.unsupported_reply \/
  exists body from_no,
    r = JDict [ ("statusCode", JNum 200);
                ("body", body);
                ("from_no", from_no);
                ("isBase64Encoded", JBool false) ].
Proof.
  intros H. pose proof (process_notification_outcome data) as Hout.
  rewrite H in Hout. exact Hout.
Qed.

Lemma process_notification_reply_shape_witness :
  JDict [ ("statusCode", JNum 200);
          ("body", JStr "what is a pointer?");
          ("from_no", JStr "5511999999999");
          ("isBase64Encoded", JBool false) ] =
    WhatsAppNotification.unsupported_reply \/
  exists body from_no,
    JDict [ ("statusCode", JNum 200);
            ("body", JStr "what is a pointer?");
            ("from_no", JStr "5511999999999");
            ("isBase64Encoded", JBool false) ] =
    JDict [ ("statusCode", JNum 200);
            ("body", body);
            ("from_no", from_no);
            ("isBase64Encoded", JBool false) ].
Proof.
  apply (process_notification_reply_shape (JDict Samples.mixed_notification)).
  reflexivity.
Defined.



(** ** The nested loops as one loop over the flattened messages *)

Section FlatScan.

Import WhatsAppNotification Flat Outcomes.

Lemma scan_messages_app (a b : list json) :
  scan_messages (a ++ b) = continue_with (scan_messages a) (scan_messages b).
Proof.
  induction a as [|m a IH]; [reflexivity|].
  destruct m as [| | | | |kv]; simpl; try reflexivity.
  destruct (py_eq_str (dict_get kv "type" JNull) "text"); [|exact IH].
  destruct (lookup "text" kv) as [t|]; simpl; [|reflexivity].
  destruct t; reflexivity.
Qed.

Lemma scan_change_flat (change : json) :
  shaped_change change = true ->
  scan_change change = scan_messages (messages_of_change change).
Proof.
  destruct change as [| | | | |kv]; try discriminate.
  unfold shaped_change, scan_change, messages_of_change. simpl. unfold dict_get.
  destruct (lookup "value" kv) as [value|]; [|reflexivity].
  destruct value as [| | | | |value]; try discriminate.
  destruct value as [|binding value]; [reflexivity|].
  simpl truthy. cbv iota. unfold py_contains, py_getitem.
  destruct (lookup "messages" (binding :: value)) as [messages|]; [|reflexivity].
  destruct messages; try discriminate. reflexivity.
Qed.

Lemma scan_changes_flat (changes : list json) :
  forallb shaped_change changes = true ->
  scan_changes changes = scan_messages (flat_map messages_of_change changes).
Proof.
  induction changes as [|c changes IH]; [reflexivity|]. simpl.
  intros H. apply andb_true_iff in H as [Hc Hcs].
  rewrite scan_messages_app, <- (scan_change_flat c Hc), <- (IH Hcs).
  destruct (scan_change c) as [[r|]|e]; reflexivity.
Qed.

Lemma scan_entry_flat (entry : json) :
  shaped_entry entry = true ->
  scan_entry entry = scan_messages (messages_of_entry entry).
Proof.
  destruct entry as [| | | | |kv]; try discriminate.
  unfold shaped_entry, scan_entry, messages_of_entry. simpl. unfold dict_get.
  destruct (lookup "changes" kv) as [changes|]; [|reflexivity].
  destruct changes; try discriminate. simpl. apply scan_changes_flat.
Qed.

Lemma scan_entries_flat (entries : list json) :
  forallb shaped_entry entries = true ->
  scan_entries entries = scan_messages (flat_map messages_of_entry entries).
Proof.
  induction entries as [|e entries IH]; [reflexivity|]. simpl.
  intros H. apply andb_true_iff in H as [He Hes].
  rewrite scan_messages_app, <- (scan_entry_flat e He), <- (IH Hes).
  destruct (scan_entry e) as [[r|]|e']; reflexivity.
Qed.

Lemma process_notification_flat (data : list (string * json)) :
  shaped_notification data = true ->
  process_notification (JDict data) =
    match scan_messages (messages_of data) with
    | Ok (Some reply) => Ok reply
    | Ok None => Ok unsupported_reply
    | Raise e => Raise e
    end.
Proof.
  unfold shaped_notification, process_notification, messages_of. simpl.
  unfold dict_get.
  destruct (lookup "entry" data) as [entries|]; [|reflexivity].
  destruct entries; try discriminate. simpl. intros H.
  rewrite (scan_entries_flat _ H).
  destruct (scan_messages _) as [[r|]|e]; reflexivity.
Qed.

Lemma messages_of_change_dicts (change : json) :
  shaped_change change = true -> forallb is_dict (messages_of_change change) = true.
Proof.
  destruct change as [| | | | |kv]; try discriminate.
  unfold shaped_change, messages_of_change.
  destruct (lookup "value" kv) as [value|]; [|reflexivity].
  destruct value as [| | | | |value]; try discriminate.
  destruct (lookup "messages" value) as [messages|]; [|reflexivity].
  destruct messages; try discriminate. auto.
Qed.

Lemma flat_map_dicts {A : Type} (f : A -> list json) (shaped : A -> bool) (l : list A) :
  (forall x, shaped x = true -> forallb is_dict (f x) = true) ->
  forallb shaped l = true -> forallb is_dict (flat_map f l) = true.
Proof.
  intros Hf. induction l as [|x l IH]; [reflexivity|]. simpl.
  intros H. apply andb_true_iff in H as [Hx Hl].
  rewrite forallb_app, (Hf x Hx), (IH Hl). reflexivity.
Qed.

Lemma messages_of_entry_dicts (entry : json) :
  shaped_entry entry = true -> forallb is_dict (messages_of_entry entry) = true.
Proof.
  destruct entry as [| | | | |kv]; try discriminate.
  unfold shaped_entry, messages_of_entry.
  destruct (lookup "changes" kv) as [changes|]; [|reflexivity].
  destruct changes; try discriminate.
  apply flat_map_dicts, messages_of_change_dicts.
Qed.

Lemma messages_of_dicts (data : list (string * json)) :
  shaped_notification data = true -> forallb is_dict (messages_of data) = true.
Proof.
  unfold shaped_notification, messages_of.
  destruct (lookup "entry" data) as [entries|]; [|reflexivity].
  destruct entries; try discriminate.
  apply flat_map_dicts, messages_of_entry_dicts.
Qed.

Lemma scan_messages_filter (messages : list json) :
  forallb is_dict messages = true ->
  scan_messages messages =
    match filter is_text_message messages with
    | [] => Ok None
    | m :: _ => scan_messages [m]
    end.
Proof.
  induction messages as [|m messages IH]; [reflexivity|].
  destruct m as [| | | | |kv]; try discriminate.
  intros H. simpl in H. cbn [filter is_text_message]. simpl scan_messages at 1.
  destruct (py_eq_str (dict_get kv "type" JNull) "text") eqn:Htype.
  - simpl. rewrite Htype. reflexivity.
  - exact (IH H).
Qed.

(** X3.  On a notification of the expected shape, [process_notification] is
    the reading of the flattened list of its text messages: the 403 reply
    when the list is empty, and otherwise the reply built from the head of
    the list (when that message carries a ["text"] object). *)
Theorem process_notification_text_messages (data : list (string * json)) :
  shaped_notification data = true ->
  (text_messages data = [] ->
   process_notification (JDict data) = Ok unsupported_reply) /\
  (forall m rest txt,
     text_messages data = JDict m :: rest ->
     lookup "text" m = Some (JDict txt) ->
     process_notification (JDict data) =
       Ok (text_reply (dict_get txt "body" JNull) (dict_get m "from" JNull))).
Proof.
  intros Hshape.
  rewrite (process_notification_flat data Hshape).
  rewrite (scan_messages_filter _ (messages_of_dicts data Hshape)).
  unfold text_messages. split.
  - intros ->. reflexivity.
  - intros m rest txt Hhead Htext. rewrite Hhead.
    assert (Htype : is_text_message (JDict m) = true).
    { assert (Hin : In (JDict m) (filter is_text_message (messages_of data)))
        by (rewrite Hhead; left; reflexivity).
      apply filter_In in Hin. exact (proj2 Hin). }
    simpl in Htype. simpl. rewrite Htype. unfold dict_get at 1 2.
    rewrite Htext. reflexivity.
Qed.

End FlatScan.

Lemma process_notification_text_messages_witness :
  WhatsAppNotification.process_notification (JDict Samples.image_only_notification) =
    Ok WhatsAppNotification.unsupported_reply /\
  WhatsAppNotification.process_notification (JDict MoreSamples.two_text_notification) =
    Ok (WhatsAppNotification.text_reply (JStr "what is a pointer?")
                                        (JStr "5511999999999")).
Proof.
  split.
  - apply (proj1 (process_notification_text_messages
                    Samples.image_only_notification eq_refl)).
    reflexivity.
  - apply (proj2 (process_notification_text_messages
                    MoreSamples.two_text_notification eq_refl)
                 Samples.text_message
                 [ JDict MoreSamples.second_text_message ]
                 [ ("body", JStr "what is a pointer?") ]);
      reflexivity.
Defined.

(** ** Errors at the first text message *)

Section FirstTextErrors.

Import WhatsAppNotification Shape.

Lemma process_notification_located_raise
    (data entry change value : list (string * json))
    (es1 es2 cs1 cs2 messages : list json) (e : exn) :
  lookup "entry" data = Some (JList (es1 ++ JDict entry :: es2)) ->
  forallb no_text_entry es1 = true ->
  lookup "changes" entry = Some (JList (cs1 ++ JDict change :: cs2)) ->
  forallb no_text_change cs1 = true ->
  lookup "value" change = Some (JDict value) ->
  lookup "messages" value = Some (JList messages) ->
  scan_messages messages = Raise e ->
  process_notification (JDict data) = Raise e.
Proof.
  intros Hentry Hes Hchanges Hcs Hvalue Hmessages Hscan.
  assert (Hchange : scan_change (JDict change) = Raise e).
  { unfold scan_change. simpl. unfold dict_get. rewrite Hvalue.
    destruct value as [|binding value]; [discriminate|].
    simpl truthy. cbv iota. unfold py_contains, py_getitem.
    rewrite Hmessages. simpl. exact Hscan. }
  unfold process_notification. simpl. unfold dict_get. rewrite Hentry. simpl.
  rewrite scan_entries_skip by assumption. simpl.
  unfold scan_entry. simpl. unfold dict_get. rewrite Hchanges. simpl.
  rewrite scan_changes_skip by assumption. simpl.
  rewrite Hchange. reflexivity.
Qed.

(** X4.  When the first message of type ["text"] of a notification has no
    ["text"] key, [process_notification] raises [KeyError]; when its
    ["text"] is present and is no dictionary, it raises [AttributeError].
    Text messages that come later, well formed or not, change nothing. *)
Theorem process_notification_first_text_malformed
    (data entry change value msg : list (string * json))
    (es1 es2 cs1 cs2 ms1 ms2 : list json) :
  lookup "entry" data = Some (JList (es1 ++ JDict entry :: es2)) ->
  forallb no_text_entry es1 = true ->
  lookup "changes" entry = Some (JList (cs1 ++ JDict change :: cs2)) ->
  forallb no_text_change cs1 = true ->
  lookup "value" change = Some (JDict value) ->
  lookup "messages" value = Some (JList (ms1 ++ JDict msg :: ms2)) ->
  forallb non_text_message ms1 = true ->
  lookup "type" msg = Some (JStr "text") ->
  (lookup "text" msg = None ->
   process_notification (JDict data) = Raise (KeyError "text")) /\
  (forall t, lookup "text" msg = Some t -> Flat.is_dict t = false ->
   process_notification (JDict data) = Raise (AttributeError "get")).
Proof.
  intros Hentry Hes Hchanges Hcs Hvalue Hmessages Hms Htype.
  split.
  - intros Htext.
    apply (process_notification_located_raise data entry change value
             es1 es2 cs1 cs2 _ _ Hentry Hes Hchanges Hcs Hvalue Hmessages).
    rewrite scan_messages_skip by assumption.
    simpl. unfold dict_get. rewrite Htype, Htext. reflexivity.
  - intros t Htext Ht.
    apply (process_notification_located_raise data entry change value
             es1 es2 cs1 cs2 _ _ Hentry Hes Hchanges Hcs Hvalue Hmessages).
    rewrite scan_messages_skip by assumption.
    simpl. unfold dict_get. rewrite Htype, Htext.
    destruct t; try reflexivity. discriminate.
Qed.

End FirstTextErrors.

Lemma process_notification_first_text_malformed_witness :
  WhatsAppNotification.process_notification (JDict Samples.bare_text_notification) =
    Raise (KeyError "text") /\
  WhatsAppNotification.process_notification (JDict MoreSamples.flat_text_notification) =
    Raise (AttributeError "get").
Proof.
  split.
  - apply (proj1 (process_notification_first_text_malformed
                    Samples.bare_text_notification
                    (Samples.entry_of
                       [ JDict (Samples.change_of [ JDict Samples.bare_text_message ]) ])
                    (Samples.change_of [ JDict Samples.bare_text_message ])
                    (Samples.value_of [ JDict Samples.bare_text_message ])
                    Samples.bare_text_message
                    [] [] [] [] [] []
                    eq_refl eq_refl eq_refl eq_refl eq_refl eq_refl eq_refl eq_refl)).
    reflexivity.
  - apply (proj2 (process_notification_first_text_malformed
                    MoreSamples.flat_text_notification
                    (Samples.entry_of
                       [ JDict (Samples.change_of [ JDict MoreSamples.flat_text_message ]) ])
                    (Samples.change_of [ JDict MoreSamples.flat_text_message ])
                    (Samples.value_of [ JDict MoreSamples.flat_text_message ])
                    MoreSamples.flat_text_message
                    [] [] [] [] [] []
                    eq_refl eq_refl eq_refl eq_refl eq_refl eq_refl eq_refl eq_refl)
                 (JStr "hi")); reflexivity.
Defined.

(** ** More on the senders *)

Section SendersMore.

Import WhatsAppClient.

Variable w : World.

(** X5.  The one request [send_template_message] makes carries the payload
    with the product tag, the recipient under ["to"], the type
    ["template"], and under ["template"] the name of the template and its
    language code nested under ["language"]; with a transport that answers
    status 200 the call returns 200. *)
Theorem send_template_message_payload
    (self : WhatsAppClient.t)
    (template_name language_code phone_number : string) (log : list event) :
  fst (send_template_message w self (JStr template_name) (JStr language_code)
                             (JStr phone_number) log) =
    (log ++
     [ RequestsPost (API_URL self ++ "/messages")
         (JDict [ ("messaging_product", JStr "whatsapp");
                  ("to", JStr phone_number);
                  ("type", JStr "template");
                  ("template",
                    JDict [ ("name", JStr template_name);
                            ("language",
                              JDict [ ("code", JStr language_code) ]) ]) ])
         (headers self) ])%list /\
  (forall response,
     requests_post w (API_URL self ++ "/messages")
       (template_payload (JStr template_name) (JStr language_code)
                         (JStr phone_number))
       (headers self) = Ok response ->
     status_code response = 200 ->
     snd (send_template_message w self (JStr template_name) (JStr language_code)
                                (JStr phone_number) log) = Ok 200).
Proof.
  rewrite send_template_message_run. cbv zeta. split; [reflexivity|].
  intros response Hpost Hstatus. cbn [snd].
  rewrite Hpost, Hstatus. reflexivity.
Qed.

(** X6.  When the transport itself raises, each sender ends with that
    exception, after the one request it attempted. *)
Theorem send_transport_error
    (self : WhatsAppClient.t)
    (message phone_number template_name language_code : json)
    (e : exn) (log : list event) :
  (forall url payload hs, requests_post w url payload hs = Raise e) ->
  send_text_message w self message phone_number log =
    ((log ++ [ RequestsPost (API_URL self ++ "/messages")
                 (text_payload message phone_number) (headers self) ])%list,
     Raise e) /\
  send_template_message w self template_name language_code phone_number log =
    ((log ++ [ RequestsPost (API_URL self ++ "/messages")
                 (template_payload template_name language_code phone_number)
                 (headers self) ])%list,
     Raise e).
Proof.
  intros Hstub.
  rewrite send_text_message_run, send_template_message_run. cbv zeta.
  rewrite !Hstub. split; reflexivity.
Qed.

Lemma append_assoc (a b c : string) : (a ++ b) ++ c = a ++ (b ++ c).
Proof. induction a as [|x a IH]; simpl; [reflexivity | now rewrite IH]. Qed.

(** X7.  A client built from the environment posts to the base URL followed
    by the number identifier and [/messages], with the token as bearer
    authorization; a credential that is not set is not an error at
    construction or at sending: its place is taken by the text [None]. *)
Theorem client_request_target (message phone_number : json) (log : list event) :
  fst (send_text_message w (init w) message phone_number log) =
    (log ++
     [ RequestsPost
         ("https://graph.facebook.com/v15.0/" ++
          py_str (WHATSAPP_CLOUD_NUMBER_ID w) ++ "/messages")%string
         (text_payload message phone_number)
         [ ("Authorization", ("Bearer " ++ py_str (WHATSAPP_API_TOKEN w))%string);
           ("Content-Type", "application/json") ] ])%list /\
  (WHATSAPP_CLOUD_NUMBER_ID w = None ->
   WHATSAPP_API_TOKEN w = None ->
   fst (send_text_message w (init w) message phone_number log) =
     (log ++
      [ RequestsPost "https://graph.facebook.com/v15.0/None/messages"
          (text_payload message phone_number)
          [ ("Authorization", "Bearer None");
            ("Content-Type", "application/json") ] ])%list).
Proof.
  rewrite send_text_message_run. cbv zeta. cbn [fst init API_URL headers].
  unfold class_API_URL. rewrite append_assoc.
  split; [reflexivity|]. intros -> ->. reflexivity.
Qed.

End SendersMore.

Lemma send_template_message_payload_witness :
  snd (WhatsAppClient.send_template_message
         (Stubs.world "ok" 200 "{}")
         (WhatsAppClient.init (Stubs.world "ok" 200 "{}"))
         (JStr "hello_world") (JStr "en_US") (JStr "5511999999999") []) = Ok 200.
Proof.
  apply (proj2 (send_template_message_payload
                  (Stubs.world "ok" 200 "{}")
                  (WhatsAppClient.init (Stubs.world "ok" 200 "{}"))
                  "hello_world" "en_US" "5511999999999" [])
               {| status_code := 200; text := "{}" |}); reflexivity.
Defined.

Lemma send_transport_error_witness :
  WhatsAppClient.send_text_message
    (MoreStubs.world_of MoreStubs.full_env (Ok (Stubs.completion_of "ok"))
                        (Raise MoreStubs.unreachable))
    (WhatsAppClient.init
       (MoreStubs.world_of MoreStubs.full_env (Ok (Stubs.completion_of "ok"))
                           (Raise MoreStubs.unreachable)))
    (JStr "hello") (JStr "5511999999999") [] =
    ([ RequestsPost "https://graph.facebook.com/v15.0/1234/messages"
         (WhatsAppClient.text_payload (JStr "hello") (JStr "5511999999999"))
         [ ("Authorization", "Bearer token");
           ("Content-Type", "application/json") ] ],
     Raise (ExternalError "connection refused")).
Proof.
  apply (proj1 (send_transport_error
                  (MoreStubs.world_of MoreStubs.full_env
                     (Ok (Stubs.completion_of "ok")) (Raise MoreStubs.unreachable))
                  (WhatsAppClient.init
                     (MoreStubs.world_of MoreStubs.full_env
                        (Ok (Stubs.completion_of "ok")) (Raise MoreStubs.unreachable)))
                  (JStr "hello") (JStr "5511999999999")
                  (JStr "hello_world") (JStr "en_US")
                  MoreStubs.unreachable []
                  (fun _ _ _ => eq_refl))).
Defined.

Lemma client_request_target_witness :
  fst (WhatsAppClient.send_text_message
         (MoreStubs.world_of [] (Ok (Stubs.completion_of "ok")) MoreStubs.accepted)
         (WhatsAppClient.init
            (MoreStubs.world_of [] (Ok (Stubs.completion_of "ok")) MoreStubs.accepted))
         (JStr "hello") (JStr "5511999999999") []) =
    [ RequestsPost "https://graph.facebook.com/v15.0/None/messages"
        (WhatsAppClient.text_payload (JStr "hello") (JStr "5511999999999"))
        [ ("Authorization", "Bearer None");
          ("Content-Type", "application/json") ] ].
Proof.
  apply (proj2 (client_request_target
                  (MoreStubs.world_of [] (Ok (Stubs.completion_of "ok"))
                                      MoreStubs.accepted)
                  (JStr "hello") (JStr "5511999999999") [])); reflexivity.
Defined.

(** ** The smoke test of cliente_whatsapp.py *)

Section SmokeTest.

Import WhatsAppMain.

Variable w : World.

(** X8.  Run as a script, the file sends nothing when [PHONE_NUMBER] is
    unset or empty; otherwise it makes exactly one request, the template
    [hello_world] in [en_US] to that number, and ends normally when the
    answer has status 200 and with the assertion error of the sender
    otherwise. *)
Theorem main_sends_template_once (log : list event) :
  (PHONE_NUMBER w = None \/ PHONE_NUMBER w = Some "" ->
   main w log = (log, Ok tt)) /\
  (forall number response,
     PHONE_NUMBER w = Some number -> number <> "" ->
     requests_post w
       (WhatsAppClient.API_URL (WhatsAppClient.init w) ++ "/messages")
       (WhatsAppClient.template_payload (JStr "hello_world") (JStr "en_US")
                                        (JStr number))
       (WhatsAppClient.headers (WhatsAppClient.init w)) = Ok response ->
     main w log =
       ((log ++
         [ RequestsPost
             (WhatsAppClient.API_URL (WhatsAppClient.init w) ++ "/messages")
             (WhatsAppClient.template_payload (JStr "hello_world") (JStr "en_US")
                                              (JStr number))
             (WhatsAppClient.headers (WhatsAppClient.init w)) ])%list,
        if status_code response =? 200 then Ok tt
        else Raise (AssertionError
                      ("Erro ao enviar mensagem de template: " ++ text response)))).
Proof.
  unfold main. split.
  - intros [H | H]; rewrite H; reflexivity.
  - intros number response Hnumber Hne Hpost. rewrite Hnumber.
    apply String.eqb_neq in Hne. cbn [truthy_str py_str]. rewrite Hne. cbn [negb].
    unfold IO.bind. rewrite send_template_message_run. cbv zeta.
    rewrite Hpost. destruct (status_code response =? 200); reflexivity.
Qed.

End SmokeTest.

Lemma main_sends_template_once_witness :
  WhatsAppMain.main
    (MoreStubs.world_of [] (Ok (Stubs.completion_of "ok")) MoreStubs.accepted) [] =
    ([], Ok tt) /\
  WhatsAppMain.main
    (MoreStubs.world_of MoreStubs.full_env (Ok (Stubs.completion_of "ok"))
                        MoreStubs.accepted) [] =
    ([ RequestsPost "https://graph.facebook.com/v15.0/1234/messages"
         (WhatsAppClient.template_payload (JStr "hello_world") (JStr "en_US")
                                          (JStr "5511999999999"))
         [ ("Authorization", "Bearer token");
           ("Content-Type", "application/json") ] ],
     Ok tt).
Proof.
  split.
  - apply (proj1 (main_sends_template_once
                    (MoreStubs.world_of [] (Ok (Stubs.completion_of "ok"))
                                        MoreStubs.accepted) [])).
    left. reflexivity.
  - apply (proj2 (main_sends_template_once
                    (MoreStubs.world_of MoreStubs.full_env
                       (Ok (Stubs.completion_of "ok")) MoreStubs.accepted) [])
                 "5511999999999" {| status_code := 200; text := "{}" |}).
    + reflexivity.
    + discriminate.
    + reflexivity.
Defined.

(** ** Failures of the completion client *)

Section CompletionFailures.

Import OpenAIClient.

Variable w : World.

(** X9.  [complete] handles no error: an exception of the completion
    service, and the [IndexError] of a completion without choices, end the
    call, in both cases after the one request it made. *)
Theorem complete_failures
    (self : OpenAIClient.t) (user_message : json) (log : list event) :
  (forall e,
     chat_completions_create w (client_api_key self) "gpt-4o"
                             (context user_message) = Raise e ->
     complete w self user_message log =
       ((log ++ [ ChatCompletionsCreate (client_api_key self) "gpt-4o"
                    (context user_message) ])%list,
        Raise e)) /\
  (forall completion,
     chat_completions_create w (client_api_key self) "gpt-4o"
                             (context user_message) = Ok completion ->
     choices completion = [] ->
     complete w self user_message log =
       ((log ++ [ ChatCompletionsCreate (client_api_key self) "gpt-4o"
                    (context user_message) ])%list,
        Raise IndexError)).
Proof.
  rewrite complete_run. split.
  - intros e ->. reflexivity.
  - intros completion -> ->. reflexivity.
Qed.

End CompletionFailures.

Lemma complete_failures_witness :
  snd (OpenAIClient.complete
         (MoreStubs.world_of MoreStubs.full_env (Raise MoreStubs.unreachable)
                             MoreStubs.accepted)
         {| OpenAIClient.client_api_key := "sk-test" |} (JStr "hi") []) =
    Raise (ExternalError "connection refused") /\
  snd (OpenAIClient.complete
         (MoreStubs.world_of MoreStubs.full_env (Ok {| choices := [] |})
                             MoreStubs.accepted)
         {| OpenAIClient.client_api_key := "sk-test" |} (JStr "hi") []) =
    Raise IndexError.
Proof.
  split.
  - apply (f_equal snd
             (proj1 (complete_failures
                       (MoreStubs.world_of MoreStubs.full_env
                          (Raise MoreStubs.unreachable) MoreStubs.accepted)
                       {| OpenAIClient.client_api_key := "sk-test" |} (JStr "hi") [])
                    MoreStubs.unreachable eq_refl)).
  - apply (f_equal snd
             (proj2 (complete_failures
                       (MoreStubs.world_of MoreStubs.full_env
                          (Ok {| choices := [] |}) MoreStubs.accepted)
                       {| OpenAIClient.client_api_key := "sk-test" |} (JStr "hi") [])
                    {| choices := [] |} eq_refl eq_refl)).
Defined.

(** ** The callback, step by step *)

Section CallbackSteps.

Import Webhook.

Variable w : World.
Variable request : Request.

(** The callback on a notification with a text message to relay. *)
Lemma callback_actionable_run (log : list event) (data body from_no : json) :
  request_json request = Ok data ->
  WhatsAppNotification.process_notification data =
    Ok (WhatsAppNotification.text_reply body from_no) ->
  truthy body = true ->
  truthy from_no = true ->
  callback w request log =
    match environ_get (environ w) "OPENAI_API_KEY" with
    | None => (log, Raise (ValueError OpenAIClient.missing_key_message))
    | Some k =>
        if String.eqb k ""
        then (log, Raise (ValueError OpenAIClient.missing_key_message))
        else
          let asked :=
            ChatCompletionsCreate k "gpt-4o" (OpenAIClient.context body) in
          match chat_completions_create w k "gpt-4o"
                                        (OpenAIClient.context body) with
          | Raise e => ((log ++ [asked])%list, Raise e)
          | Ok completion =>
              match choices completion with
              | [] => ((log ++ [asked])%list, Raise IndexError)
              | first :: _ =>
                  let url :=
                    WhatsAppClient.API_URL (WhatsAppClient.init w) ++ "/messages" in
                  let payload :=
                    WhatsAppClient.text_payload (content (message first)) from_no in
                  let hs := WhatsAppClient.headers (WhatsAppClient.init w) in
                  let sent := RequestsPost url payload hs in
                  match requests_post w url payload hs with
                  | Raise e => ((log ++ [asked; sent])%list, Raise e)
                  | Ok response =>
                      ((log ++ [asked; sent])%list,
                       if status_code response =? 200 then Ok success
                       else Raise (AssertionError
                                     ("Erro ao enviar mensagem de texto: " ++
                                      text response)))
                  end
              end
          end
    end.
Proof.
  intros Hjson Hscan Hbody Hfrom.
  unfold callback, WhatsAppClient.process_notification.
  unfold IO.bind at 1. unfold IO.lift at 1. rewrite Hjson.
  unfold IO.bind at 1. unfold IO.lift at 1. rewrite Hscan.
  unfold IO.bind at 1. unfold IO.lift at 1.
  cbn [WhatsAppNotification.text_reply py_get].
  change (dict_get _ "statusCode" JNull) with (JNum 200).
  cbn [py_eq_int Z.eqb Pos.eqb].
  unfold IO.bind at 1. unfold IO.lift at 1.
  change (dict_get _ "body" JNull) with body.
  unfold IO.bind at 1. unfold IO.lift at 1.
  change (dict_get _ "from_no" JNull) with from_no.
  rewrite Hbody, Hfrom. cbn [andb].
  unfold IO.bind at 1. rewrite init_run.
  destruct (environ_get (environ w) "OPENAI_API_KEY") as [k|]; [|reflexivity].
  destruct (String.eqb k ""); [reflexivity|].
  unfold IO.bind at 1. unfold IO.lift at 1.
  change (py_getitem _ "body") with (Ok body).
  unfold IO.bind at 1. rewrite complete_run. cbn [OpenAIClient.client_api_key].
  cbv zeta.
  destruct (chat_completions_create w k "gpt-4o" (OpenAIClient.context body))
    as [completion|e]; [|reflexivity].
  destruct (choices completion) as [|first rest]; [reflexivity|].
  unfold IO.bind at 1. unfold IO.lift at 1.
  change (py_getitem _ "from_no") with (Ok from_no).
  unfold IO.bind at 1. rewrite send_text_message_run. cbv zeta.
  rewrite <- app_assoc. cbn [app].
  destruct (requests_post w _ _ _) as [response|e]; [|reflexivity].
  destruct (status_code response =? 200); reflexivity.
Qed.

End CallbackSteps.

Section CallbackFailures.

Import Webhook.

Variable w : World.
Variable request : Request.

Lemma callback_body_error (log : list event) (e : exn) :
  request_json request = Raise e -> callback w request log = (log, Raise e).
Proof. intros H. unfold callback, IO.bind, IO.lift. rewrite H. reflexivity. Qed.

Lemma callback_scan_error (log : list event) (data : json) (e : exn) :
  request_json request = Ok data ->
  WhatsAppNotification.process_notification data = Raise e ->
  callback w request log = (log, Raise e).
Proof.
  intros Hjson Hscan.
  unfold callback, IO.bind, IO.lift, WhatsAppClient.process_notification.
  rewrite Hjson, Hscan. reflexivity.
Qed.

(** X10.  One run of [callback] makes no outbound call, or one completion
    call, or one completion call followed by one post to the messaging
    service, and nothing else; when it stops after the completion call
    alone it has raised. *)
Theorem callback_calls_in_order (log : list event) :
  exists suffix,
    fst (callback w request log) = (log ++ suffix)%list /\
    (suffix = [] \/
     (exists k body,
        suffix = [ ChatCompletionsCreate k "gpt-4o" (OpenAIClient.context body) ] /\
        exists e, snd (callback w request log) = Raise e) \/
     (exists k body url payload hs,
        suffix = [ ChatCompletionsCreate k "gpt-4o" (OpenAIClient.context body);
                   RequestsPost url payload hs ])).
Proof.
  assert (Hnone : forall r, callback w request log = (log, r) ->
            exists suffix,
              fst (callback w request log) = (log ++ suffix)%list /\
              (suffix = [] \/
               (exists k body,
                  suffix = [ ChatCompletionsCreate k "gpt-4o"
                               (OpenAIClient.context body) ] /\
                  exists e, snd (callback w request log) = Raise e) \/
               (exists k body url payload hs,
                  suffix = [ ChatCompletionsCreate k "gpt-4o"
                               (OpenAIClient.context body);
                             RequestsPost url payload hs ]))).
  { intros r ->. exists []. rewrite app_nil_r. split; [reflexivity | now left]. }
  destruct (request_json request) as [data|e] eqn:Hjson;
    [|exact (Hnone _ (callback_body_error log e Hjson))].
  pose proof (process_notification_outcome data) as Hout.
  destruct (WhatsAppNotification.process_notification data) as [r|e] eqn:Hscan;
    [|exact (Hnone _ (callback_scan_error log data e Hjson Hscan))].
  destruct Hout as [-> | (body & from_no & ->)].
  - apply (Hnone (Ok success)).
    apply (callback_nothing_to_relay w request log data _ Hjson Hscan). now left.
  - destruct (truthy body && truthy from_no) eqn:Htruthy.
    + apply andb_true_iff in Htruthy as [Hbody Hfrom].
      rewrite (callback_actionable_run w request log data body from_no
                 Hjson Hscan Hbody Hfrom).
      destruct (environ_get (environ w) "OPENAI_API_KEY") as [k|];
        [|exists []; rewrite app_nil_r; split; [reflexivity | now left]].
      destruct (String.eqb k "");
        [exists []; rewrite app_nil_r; split; [reflexivity | now left]|].
      cbv zeta.
      destruct (chat_completions_create w k "gpt-4o" (OpenAIClient.context body))
        as [completion|e].
      * destruct (choices completion) as [|first rest].
        -- eexists. split; [reflexivity|]. right; left.
           exists k, body. split; [reflexivity|]. now exists IndexError.
        -- destruct (requests_post w _ _ _) as [response|e];
             (eexists; split; [reflexivity|]; right; right;
              now repeat eexists).
      * eexists. split; [reflexivity|]. right; left.
        exists k, body. split; [reflexivity|]. now exists e.
    + apply (Hnone (Ok success)).
      apply (callback_nothing_to_relay w request log data _ Hjson Hscan).
      right. now exists body, from_no.
Qed.

(** X11.  [callback] ends with the exception, having sent nothing, when the
    body of the request cannot be decoded, when [process_notification]
    raises, and when there is a message to relay and [OPENAI_API_KEY] is
    unset or empty. *)
Theorem callback_fails_before_sending (log : list event) :
  (forall e, request_json request = Raise e ->
             callback w request log = (log, Raise e)) /\
  (forall data e,
     request_json request = Ok data ->
     WhatsAppNotification.process_notification data = Raise e ->
     callback w request log = (log, Raise e)) /\
  (forall data body from_no,
     request_json request = Ok data ->
     WhatsAppNotification.process_notification data =
       Ok (WhatsAppNotification.text_reply body from_no) ->
     truthy body = true ->
     truthy from_no = true ->
     environ_get (environ w) "OPENAI_API_KEY" = None \/
     environ_get (environ w) "OPENAI_API_KEY" = Some "" ->
     callback w request log =
       (log, Raise (ValueError OpenAIClient.missing_key_message))).
Proof.
  split; [|split].
  - apply callback_body_error.
  - apply callback_scan_error.
  - intros data body from_no Hjson Hscan Hbody Hfrom Hkey.
    rewrite (callback_actionable_run w request log data body from_no
               Hjson Hscan Hbody Hfrom).
    destruct Hkey as [-> | ->]; reflexivity.
Qed.

(** X12.  When the completion service raises, or answers without any
    choice, [callback] ends with that exception (an [IndexError] in the
    second case) and nothing is posted to the messaging service. *)
Theorem callback_completion_failure
    (log : list event) (data body from_no : json) (k : string) :
  request_json request = Ok data ->
  WhatsAppNotification.process_notification data =
    Ok (WhatsAppNotification.text_reply body from_no) ->
  truthy body = true ->
  truthy from_no = true ->
  environ_get (environ w) "OPENAI_API_KEY" = Some k ->
  k <> "" ->
  (forall e,
     chat_completions_create w k "gpt-4o" (OpenAIClient.context body) = Raise e ->
     callback w request log =
       ((log ++ [ ChatCompletionsCreate k "gpt-4o" (OpenAIClient.context body) ])%list,
        Raise e)) /\
  (forall completion,
     chat_completions_create w k "gpt-4o" (OpenAIClient.context body) =
       Ok completion ->
     choices completion = [] ->
     callback w request log =
       ((log ++ [ ChatCompletionsCreate k "gpt-4o" (OpenAIClient.context body) ])%list,
        Raise IndexError)).
Proof.
  intros Hjson Hscan Hbody Hfrom Hkey Hk.
  rewrite (callback_actionable_run w request log data body from_no
             Hjson Hscan Hbody Hfrom).
  rewrite Hkey. apply String.eqb_neq in Hk. rewrite Hk. cbv zeta. split.
  - intros e ->. reflexivity.
  - intros completion -> ->. reflexivity.
Qed.

(** X13.  When the reply was generated and the messaging service answers
    with a status other than 200, [callback] raises the assertion error
    that carries the text of the answer; when the transport raises,
    [callback] raises that exception.  Both calls were made. *)
Theorem callback_send_failure
    (log : list event) (data body from_no : json) (k : string)
    (completion : ChatCompletion) (first : Choice) (rest : list Choice) :
  request_json request = Ok data ->
  WhatsAppNotification.process_notification data =
    Ok (WhatsAppNotification.text_reply body from_no) ->
  truthy body = true ->
  truthy from_no = true ->
  environ_get (environ w) "OPENAI_API_KEY" = Some k ->
  k <> "" ->
  chat_completions_create w k "gpt-4o" (OpenAIClient.context body) = Ok completion ->
  choices completion = first :: rest ->
  (forall response,
     requests_post w
       (WhatsAppClient.API_URL (WhatsAppClient.init w) ++ "/messages")
       (WhatsAppClient.text_payload (content (message first)) from_no)
       (WhatsAppClient.headers (WhatsAppClient.init w)) = Ok response ->
     status_code response <> 200 ->
     callback w request log =
       ((log ++
         [ ChatCompletionsCreate k "gpt-4o" (OpenAIClient.context body);
           RequestsPost
             (WhatsAppClient.API_URL (WhatsAppClient.init w) ++ "/messages")
             (WhatsAppClient.text_payload (content (message first)) from_no)
             (WhatsAppClient.headers (WhatsAppClient.init w)) ])%list,
        Raise (AssertionError
                 ("Erro ao enviar mensagem de texto: " ++ text response)))) /\
  (forall e,
     requests_post w
       (WhatsAppClient.API_URL (WhatsAppClient.init w) ++ "/messages")
       (WhatsAppClient.text_payload (content (message first)) from_no)
       (WhatsAppClient.headers (WhatsAppClient.init w)) = Raise e ->
     callback w request log =
       ((log ++
         [ ChatCompletionsCreate k "gpt-4o" (OpenAIClient.context body);
           RequestsPost
             (WhatsAppClient.API_URL (WhatsAppClient.init w) ++ "/messages")
             (WhatsAppClient.text_payload (content (message first)) from_no)
             (WhatsAppClient.headers (WhatsAppClient.init w)) ])%list,
        Raise e)).
Proof.
  intros Hjson Hscan Hbody Hfrom Hkey Hk Hcreate Hchoices.
  rewrite (callback_actionable_run w request log data body from_no
             Hjson Hscan Hbody Hfrom).
  rewrite Hkey. apply String.eqb_neq in Hk. rewrite Hk. cbv zeta.
  rewrite Hcreate, Hchoices. split.
  - intros response -> Hstatus. apply Z.eqb_neq in Hstatus. rewrite Hstatus.
    reflexivity.
  - intros e ->. reflexivity.
Qed.

End CallbackFailures.

Lemma callback_fails_before_sending_witness :
  Webhook.callback (Stubs.world "ok" 200 "{}")
    (Stubs.get_request None None) [] = ([], Raise (ValueError "no body")) /\
  Webhook.callback (Stubs.world "ok" 200 "{}")
    (Stubs.post_request (JList [])) [] = ([], Raise (AttributeError "get")) /\
  Webhook.callback (Stubs.world_with_key (Some ""))
    (Stubs.post_request (JDict Samples.single_text_notification)) [] =
    ([], Raise (ValueError OpenAIClient.missing_key_message)).
Proof.
  split; [|split].
  - apply (proj1 (callback_fails_before_sending
                    (Stubs.world "ok" 200 "{}") (Stubs.get_request None None) [])).
    reflexivity.
  - apply (proj1 (proj2 (callback_fails_before_sending
                           (Stubs.world "ok" 200 "{}")
                           (Stubs.post_request (JList [])) []))
                 (JList [])); reflexivity.
  - apply (proj2 (proj2 (callback_fails_before_sending
                           (Stubs.world_with_key (Some ""))
                           (Stubs.post_request (JDict Samples.single_text_notification))
                           []))
                 (JDict Samples.single_text_notification)
                 (JStr "what is a pointer?") (JStr "5511999999999"));
      try reflexivity.
    right. reflexivity.
Defined.

Lemma callback_completion_failure_witness :
  Webhook.callback
    (MoreStubs.world_of MoreStubs.full_env (Raise MoreStubs.unreachable)
                        MoreStubs.accepted)
    (Stubs.post_request (JDict Samples.single_text_notification)) [] =
    ([ ChatCompletionsCreate "sk-test" "gpt-4o"
         (OpenAIClient.context (JStr "what is a pointer?")) ],
     Raise (ExternalError "connection refused")).
Proof.
  assert (Hk : "sk-test" <> "") by discriminate.
  apply (proj1 (callback_completion_failure
                  (MoreStubs.world_of MoreStubs.full_env
                     (Raise MoreStubs.unreachable) MoreStubs.accepted)
                  (Stubs.post_request (JDict Samples.single_text_notification))
                  [] (JDict Samples.single_text_notification)
                  (JStr "what is a pointer?") (JStr "5511999999999") "sk-test"
                  eq_refl eq_refl eq_refl eq_refl eq_refl Hk)
               MoreStubs.unreachable).
  reflexivity.
Defined.

Lemma callback_send_failure_witness :
  Webhook.callback (Stubs.world "An address." 500 "server error")
    (Stubs.post_request (JDict Samples.single_text_notification)) [] =
    ([ ChatCompletionsCreate "sk-test" "gpt-4o"
         (OpenAIClient.context (JStr "what is a pointer?"));
       RequestsPost "https://graph.facebook.com/v15.0/1234/messages"
         (WhatsAppClient.text_payload (JStr "An address.") (JStr "5511999999999"))
         [ ("Authorization", "Bearer token");
           ("Content-Type", "application/json") ] ],
     Raise (AssertionError "Erro ao enviar mensagem de texto: server error")).
Proof.
  assert (Hk : "sk-test" <> "") by discriminate.
  apply (proj1 (callback_send_failure
                  (Stubs.world "An address." 500 "server error")
                  (Stubs.post_request (JDict Samples.single_text_notification))
                  [] (JDict Samples.single_text_notification)
                  (JStr "what is a pointer?") (JStr "5511999999999") "sk-test"
                  (Stubs.completion_of "An address.")
                  {| message := {| content := JStr "An address." |} |} []
                  eq_refl eq_refl eq_refl eq_refl eq_refl Hk eq_refl eq_refl)
               {| status_code := 500; text := "server error" |}).
  - reflexivity.
  - simpl. lia.
Defined.

(** ** The handshake echoes the challenge *)

Section Echo.

Import PyInt.

Local Abbreviation uint_chars d :=
  (list_ascii_of_string (DecimalString.NilEmpty.string_of_uint d)).

Lemma digits_value_acc (d : Decimal.uint) :
  forall acc : positive,
    digits_value true (Zpos acc) (uint_chars d) =
      Some (Zpos (Pos.of_uint_acc d acc)).
Proof.
  induction d; intros acc; cbn [DecimalString.NilEmpty.string_of_uint
    list_ascii_of_string digits_value Pos.of_uint_acc]; try reflexivity;
    (change (is_digit _) with true; cbv iota;
     match goal with
     | |- digits_value true ?z _ = Some (Zpos (Pos.of_uint_acc _ ?p)) =>
         replace z with (Zpos p);
           [| match goal with
              | |- context [digit_value ?c] =>
                  let v := eval vm_compute in (digit_value c) in
                  change (digit_value c) with v
              end; lia ]
     end; apply IHd).
Qed.

Lemma digits_value_zero (d : Decimal.uint) :
  digits_value true 0 (uint_chars d) = Some (Z.of_N (Pos.of_uint d)).
Proof.
  induction d; cbn [DecimalString.NilEmpty.string_of_uint
    list_ascii_of_string digits_value Pos.of_uint]; try reflexivity;
    change (is_digit _) with true; cbv iota;
    [exact IHd | ..]; apply (digits_value_acc d).
Qed.

Lemma digits_value_numeral (d : Decimal.uint) :
  d <> Decimal.Nil ->
  digits_value false 0 (uint_chars d) = Some (Z.of_N (Pos.of_uint d)).
Proof.
  destruct d; intros Hd; [contradiction | ..];
    cbn [DecimalString.NilEmpty.string_of_uint list_ascii_of_string
         digits_value Pos.of_uint];
    change (is_digit _) with true; cbv iota;
    [apply digits_value_zero | ..]; apply (digits_value_acc d).
Qed.

Lemma lstrip_no_space (cs : list ascii) :
  forallb (fun c => negb (is_space c)) cs = true -> lstrip cs = cs.
Proof.
  destruct cs as [|c cs]; [reflexivity|]. simpl. intros H.
  apply andb_true_iff in H as [Hc _]. apply negb_true_iff in Hc.
  now rewrite Hc.
Qed.

Lemma strip_no_space (cs : list ascii) :
  forallb (fun c => negb (is_space c)) cs = true -> strip cs = cs.
Proof.
  intros H. unfold strip. rewrite (lstrip_no_space cs H).
  rewrite lstrip_no_space; [apply rev_involutive|].
  apply forallb_forall. intros c Hc. apply in_rev in Hc.
  exact (proj1 (forallb_forall _ _) H c Hc).
Qed.

Lemma uint_chars_no_space (d : Decimal.uint) :
  forallb (fun c => negb (is_space c)) (uint_chars d) = true.
Proof. induction d; simpl; auto. Qed.

Lemma to_uint_not_nil (p : positive) : Pos.to_uint p <> Decimal.Nil.
Proof.
  intros H. pose proof (DecimalPos.Unsigned.of_to p) as Hp.
  rewrite H in Hp. discriminate.
Qed.

Lemma py_int_of_str (n : Z) : py_int (py_str_int n) = Ok n.
Proof.
  unfold py_int, py_str_int.
  destruct n as [|p|p]; [reflexivity | |];
    pose proof (to_uint_not_nil p) as Hnil;
    pose proof (digits_value_numeral (Pos.to_uint p) Hnil) as Hvalue;
    rewrite DecimalPos.Unsigned.of_to in Hvalue;
    cbn [Z.to_int DecimalString.NilZero.string_of_int].
  - assert (Hs : DecimalString.NilZero.string_of_uint (Pos.to_uint p) =
                 DecimalString.NilEmpty.string_of_uint (Pos.to_uint p))
      by (destruct (Pos.to_uint p); [contradiction | reflexivity ..]).
    rewrite Hs, (strip_no_space _ (uint_chars_no_space _)).
    assert (Hl : literal_value (uint_chars (Pos.to_uint p)) =
                 digits_value false 0 (uint_chars (Pos.to_uint p)))
      by (destruct (Pos.to_uint p); [contradiction | reflexivity ..]).
    rewrite Hl, Hvalue. reflexivity.
  - assert (Hs : DecimalString.NilZero.string_of_uint (Pos.to_uint p) =
                 DecimalString.NilEmpty.string_of_uint (Pos.to_uint p))
      by (destruct (Pos.to_uint p); [contradiction | reflexivity ..]).
    rewrite Hs. cbn [list_ascii_of_string].
    rewrite strip_no_space
      by (cbn [forallb]; rewrite uint_chars_no_space; reflexivity).
    unfold literal_value. change (Ascii.eqb "-" "-") with true. cbv iota.
    rewrite Hvalue. reflexivity.
Qed.

End Echo.

Section SubscribeMore.

Import PyInt Webhook.

Variable w : World.
Variable request : Request.

(** X14.  The handshake echoes the challenge: for every integer [n] whose
    decimal numeral has at most 4300 characters (the length up to which
    every interpreter converts), when the token matches and the challenge
    is that numeral, [subscribe] returns [n]. *)
Theorem subscribe_echoes_challenge (n : Z) :
  (String.length (py_str_int n) <= 4300)%nat ->
  query_params request "hub.verify_token" = WHATSAPP_HOOK_TOKEN w ->
  query_params request "hub.challenge" = Some (py_str_int n) ->
  subscribe w request = Ok (JNum n).
Proof.
  intros _ Htoken Hchallenge.
  assert (Hne : py_str_int n <> "").
  { intros Hempty. pose proof (py_int_of_str n) as H.
    rewrite Hempty in H. discriminate. }
  rewrite (subscribe_accepts w request _ Htoken Hchallenge Hne).
  rewrite py_int_of_str. reflexivity.
Qed.

(** X15.  With [WHATSAPP_HOOK_TOKEN] unset, a request that carries a
    non-empty challenge and no [hub.verify_token] at all passes the token
    check (its challenge is converted and returned), while a request that
    carries any token is refused. *)
Theorem subscribe_with_unset_token (c : string) :
  WHATSAPP_HOOK_TOKEN w = None ->
  query_params request "hub.challenge" = Some c ->
  c <> "" ->
  (query_params request "hub.verify_token" = None ->
   subscribe w request = ResultMonad.map JNum (py_int c)) /\
  (forall t, query_params request "hub.verify_token" = Some t ->
   subscribe w request = Ok (JStr failure_message)).
Proof.
  intros Hunset Hchallenge Hc. split.
  - intros Hnone. apply subscribe_accepts; try assumption. congruence.
  - intros t Hsome. unfold subscribe. rewrite Hsome, Hunset. reflexivity.
Qed.

(** X16.  [subscribe] has three outcomes only: the failure text, an integer,
    or the [ValueError] of the conversion. *)
Theorem subscribe_outcomes :
  subscribe w request = Ok (JStr failure_message) \/
  (exists n, subscribe w request = Ok (JNum n)) \/
  subscribe w request = Raise invalid_literal.
Proof.
  unfold subscribe.
  destruct (eqb_str _ _ && truthy_str _) eqn:Hguard; [|now left].
  apply andb_true_iff in Hguard as [_ Hchallenge].
  destruct (query_params request "hub.challenge") as [c|]; [|discriminate].
  unfold py_int_opt, py_int.
  destruct (literal_value _) as [n|]; simpl.
  - right; left. now exists n.
  - now right; right.
Qed.

End SubscribeMore.

Lemma subscribe_echoes_challenge_witness :
  Webhook.subscribe (Stubs.world "ok" 200 "{}")
    (Stubs.get_request (Some "secret") (Some "-987654321")) =
    Ok (JNum (-987654321)).
Proof.
  apply (subscribe_echoes_challenge
           (Stubs.world "ok" 200 "{}")
           (Stubs.get_request (Some "secret") (Some "-987654321"))
           (-987654321)); [simpl; lia | reflexivity | reflexivity].
Defined.

Lemma subscribe_with_unset_token_witness :
  Webhook.subscribe
    (MoreStubs.world_of [] (Ok (Stubs.completion_of "ok")) MoreStubs.accepted)
    (Stubs.get_request None (Some "42")) = Ok (JNum 42) /\
  Webhook.subscribe
    (MoreStubs.world_of [] (Ok (Stubs.completion_of "ok")) MoreStubs.accepted)
    (Stubs.get_request (Some "guess") (Some "42")) =
    Ok (JStr Webhook.failure_message).
Proof.
  assert (Hc : "42" <> "") by discriminate.
  split.
  - apply (proj1 (subscribe_with_unset_token
                    (MoreStubs.world_of [] (Ok (Stubs.completion_of "ok"))
                                        MoreStubs.accepted)
                    (Stubs.get_request None (Some "42")) "42"
                    eq_refl eq_refl Hc)).
    reflexivity.
  - apply (proj2 (subscribe_with_unset_token
                    (MoreStubs.world_of [] (Ok (Stubs.completion_of "ok"))
                                        MoreStubs.accepted)
                    (Stubs.get_request (Some "guess") (Some "42")) "42"
                    eq_refl eq_refl Hc)
                 "guess").
    reflexivity.
Defined.
